(** * darter/file.py: unwrapping snapshot blobs from ELF and AppJIT containers

    A shallow embedding of [parse_elf_snapshot] and [parse_appjit_snapshot]
    (darter/file.py) together with the properties of the blob extraction
    that the specification of the repository states.

    Python integers are unbounded, so positions, lengths and offsets are [Z];
    the unsigned fields of an ELF file are [N].  A [bytes] object is a list
    of [byte].  The readers print, open files, move a file cursor and call
    the snapshot decoder: these effects are threaded through a small
    state-and-exception monad whose state records the events in the order
    the code performs them. *)

From Stdlib Require Import ZArith NArith QArith Qround List String Ascii Lia.
From Stdlib.Strings Require Import Byte.
From stdpp Require Import gmap strings list.

Local Open Scope Z_scope.

(** ** Python values shared by both readers *)

Abbreviation bytes := (list byte).

(** The exceptions the two readers can let escape.  [DecoderError] stands for
    whatever [Snapshot(...).parse()] raises; [ELFError] for a failure of the
    pyelftools constructor. *)
Inductive Exn :=
| FileNotFoundError (fname : string)
| StructError
| ValueError
| OSError
| ZeroDivisionError
| KeyError (key : string)
| StopIteration
| AssertionError
| IndexError
| MissingElftools
| ELFError
| DecoderError (tag : Z).

Inductive Res (A : Type) :=
| Ok (a : A)
| Raise (e : Exn).
Arguments Ok {A} a.
Arguments Raise {A} e.

(** [**kwargs]: the readers themselves only look at ['print_level']; the
    dictionary is forwarded to the decoder as it is. *)
Record Kwargs := { print_level : option Z }.

(** ** struct.unpack *)

Definition byte_to_Z (b : byte) : Z := Z.of_N (Byte.to_N b).

(** Little-endian unsigned value of a byte string. *)
Fixpoint le_unsigned (bs : bytes) : Z :=
  match bs with
  | [] => 0
  | b :: rest => byte_to_Z b + 256 * le_unsigned rest
  end.

(** Two's complement reading of a 64-bit unsigned value. *)
Definition to_signed64 (u : Z) : Z :=
  if u <? 2 ^ 63 then u else u - 2 ^ 64.

(** [unpack('<Q', b)[0]]: exactly eight bytes or [struct.error]. *)
Definition unpack_Q (b : bytes) : Res Z :=
  if (length b =? 8)%nat then Ok (le_unsigned b) else Raise StructError.

(** [unpack('<qqqq', b)]: exactly thirty-two bytes or [struct.error]. *)
Definition unpack_qqqq (b : bytes) : Res (list Z) :=
  if (length b =? 32)%nat then
    Ok [ to_signed64 (le_unsigned (take 8 b));
         to_signed64 (le_unsigned (take 8 (drop 8 b)));
         to_signed64 (le_unsigned (take 8 (drop 16 b)));
         to_signed64 (le_unsigned (take 8 (drop 24 b))) ]
  else Raise StructError.

(** ** str.format and str.split *)

Definition hex_digit (n : Z) : ascii :=
  match n with
  | 0 => "0" | 1 => "1" | 2 => "2" | 3 => "3" | 4 => "4" | 5 => "5"
  | 6 => "6" | 7 => "7" | 8 => "8" | 9 => "9" | 10 => "a" | 11 => "b"
  | 12 => "c" | 13 => "d" | 14 => "e" | _ => "f"
  end%char.

Fixpoint hex_digits (k : nat) (n : Z) (acc : string) : string :=
  match k with
  | O => acc
  | S k' => hex_digits k' (n / 16) (String (hex_digit (n mod 16)) acc)
  end.

(** ["{:016x}".format(n)] for the values [unpack('<Q', ...)] produces,
    [0 <= n < 2^64]: sixteen lower-case hexadecimal digits. *)
Definition format_016x (n : Z) : string := hex_digits 16 n "".

(** [s.split('-')[0]]: the part of [s] before its first dash. *)
Fixpoint split_dash_head (s : string) : string :=
  match s with
  | EmptyString => EmptyString
  | String c rest =>
      if Ascii.eqb c "-"%char then EmptyString
      else String c (split_dash_head rest)
  end.

(** ** Binary file objects *)

(** An open binary file: its content and the cursor. *)
Record BinFile := { content : bytes; pos : Z }.

(** The bytes a read of [size] at position [p] returns: up to [size] bytes
    from [p], nothing at or past the end of the file, everything that
    remains for [size = -1]. *)
Definition pread (c : bytes) (p size : Z) : bytes :=
  let rest := drop (Z.to_nat p) c in
  if size <? 0 then rest else take (Z.to_nat size) rest.

(** ** What pyelftools shows of an ELF file *)

(** A symbol table entry: [st_value] and [st_size] are unsigned words. *)
Record Entry := { st_value : N; st_size : N }.

Record Symbol := { name : string; entry : Entry }.

(** A section: its header's address, the size pyelftools reports for its
    data, the bytes [data()] returns, and, for a [SymbolTableSection], the
    symbols [iter_symbols()] yields. *)
Record Section := {
  sh_addr : N;
  data_size : N;
  sec_data : bytes;
  symtab : option (list Symbol)
}.

(** [elfclass] is 32 or 64; the constructor rejects any other file. *)
Inductive ElfClass := ELFCLASS32 | ELFCLASS64.

Record ELF := {
  elf_sections : list Section;
  e_machine : string;
  elfclass : ElfClass
}.

Definition elfclass_int (f : ELF) : Z :=
  match elfclass f with ELFCLASS32 => 32 | ELFCLASS64 => 64 end.

(** [str(f.elfclass)] *)
Definition elfclass_str (f : ELF) : string :=
  match elfclass f with ELFCLASS32 => "32" | ELFCLASS64 => "64" end.

(** ** The readers *)

Section Readers.

(** The decoder [core.Snapshot] is outside this file: the readers build a
    [Snapshot] from two blobs with their offsets and call [parse()] on it,
    and read back [arch] and [is_64] of what it returns. *)
Context {SnapT : Type}.
Variable snap_arch : SnapT -> string.
Variable snap_is_64 : SnapT -> bool.

(** The keyword arguments of one [Snapshot(...)] construction.  A keyword
    the call leaves out takes the constructor's default ([vm=False],
    [base=None]). *)
Record DecodeArgs := {
  data : bytes;
  data_offset : Z;
  instructions : bytes;
  instructions_offset : Z;
  vm : bool;
  base : option SnapT;
  kwargs : Kwargs
}.

(** [Snapshot(...).parse()] on the keyword arguments [args]. *)
Variable Snapshot_parse : DecodeArgs -> Res SnapT.

(** The constants of darter/constants.py the readers import. *)
Variable kAppAOTSymbols : list string.
Variable kAppJITMagic : Z.
Variable kAppSnapshotPageSize : Z.

(** What the code does, in order: opening a file, moving its cursor,
    asking it for bytes, calling [log] (at which level, with which line,
    and whether the line was printed) and calling the decoder. *)
Inductive Event :=
| EvOpen (fname : string)
| EvSeek (target : Z)
| EvRead (size : Z)
| EvLog (level : Z) (line : string) (printed : bool)
| EvDecode (args : DecodeArgs).

(** The state the effects act on: the files on disk, the handles opened so
    far and not closed, and the events performed so far. *)
Record St := {
  files : gmap string bytes;
  handles : list string;
  events : list Event
}.

Definition M (A : Type) : Type := St -> Res A * St.

Definition ret {A} (a : A) : M A := fun st => (Ok a, st).

Definition raise {A} (e : Exn) : M A := fun st => (Raise e, st).

Definition bind {A B} (m : M A) (k : A -> M B) : M B :=
  fun st =>
    match m st with
    | (Ok a, st') => k a st'
    | (Raise e, st') => (Raise e, st')
    end.

#[global] Instance M_ret : MRet M := @ret.
#[global] Instance M_bind : MBind M := fun A B k m => bind m k.

Definition lift {A} (r : Res A) : M A := fun st => (r, st).

Definition emit (ev : Event) : M unit :=
  fun st =>
    (Ok tt, {| files := files st; handles := handles st;
               events := events st ++ [ev] |}).

(** [open(fname, 'rb')]: the handle stays in [handles] until something
    closes it. *)
Definition py_open (fname : string) : M BinFile :=
  fun st =>
    match files st !! fname with
    | Some c =>
        (Ok {| content := c; pos := 0 |},
         {| files := files st; handles := fname :: handles st;
            events := events st ++ [EvOpen fname] |})
    | None => (Raise (FileNotFoundError fname), st)
    end.

(** [f.read(size)] on a buffered binary file: a size below [-1] is
    rejected ("read length must be non-negative or -1"). *)
Definition f_read (f : BinFile) (size : Z) : M (bytes * BinFile) :=
  _ ← emit (EvRead size);
  if size <? -1 then raise ValueError
  else
    let b := pread (content f) (pos f) size in
    ret (b, {| content := content f; pos := pos f + Z.of_nat (length b) |}).

(** [f.seek(target)]: any non-negative target is accepted, also past the
    end of the file. *)
Definition f_seek (f : BinFile) (target : Z) : M BinFile :=
  _ ← emit (EvSeek target);
  if target <? 0 then raise OSError
  else ret {| content := content f; pos := target |}.

Definition f_tell (f : BinFile) : Z := pos f.

(** [l[i]] *)
Definition py_index {A} (l : list A) (i : nat) : M A :=
  match l !! i with
  | Some x => ret x
  | None => raise IndexError
  end.

(** [Snapshot(...).parse()] as an effect. *)
Definition decode (args : DecodeArgs) : M SnapT :=
  _ ← emit (EvDecode args);
  lift (Snapshot_parse args).

(** [log = lambda n, x: print(x) if kwargs.get('print_level', dflt) >= n else None] *)
Definition log (dflt : Z) (kw : Kwargs) (n : Z) (x : string) : M unit :=
  emit (EvLog n x (n <=? default dflt (print_level kw))).

(** The lines [print] wrote. *)
Definition stdout (evs : list Event) : list string :=
  omap (fun ev => match ev with EvLog _ x true => Some x | _ => None end) evs.

Definition nl : string := String (ascii_of_nat 10) EmptyString.

(** *** parse_appjit_snapshot *)

(** [((tell - 1) // kAppSnapshotPageSize + 1) * kAppSnapshotPageSize];
    [//] is floor division and raises on a zero divisor. *)
Definition page_align (tell : Z) : Res Z :=
  if kAppSnapshotPageSize =? 0 then Raise ZeroDivisionError
  else Ok (((tell - 1) / kAppSnapshotPageSize + 1) * kAppSnapshotPageSize).

(** One turn of [for length in lengths]. *)
Definition extract_blob (f : BinFile) (blobs : list bytes) (offsets : list Z)
    (length : Z) : M (BinFile * list bytes * list Z) :=
  target ← lift (page_align (f_tell f));
  f ← f_seek f target;
  let offsets := offsets ++ [f_tell f] in
  '(blob, f) ← f_read f length;
  ret (f, blobs ++ [blob], offsets).

Fixpoint extract_blobs (f : BinFile) (blobs : list bytes) (offsets : list Z)
    (lengths : list Z) : M (BinFile * list bytes * list Z) :=
  match lengths with
  | [] => ret (f, blobs, offsets)
  | length :: rest =>
      '(f, blobs, offsets) ← extract_blob f blobs offsets length;
      extract_blobs f blobs offsets rest
  end.

(** The part of [parse_appjit_snapshot] after the loop. *)
Definition appjit_decode (lengths : list Z) (blobs : list bytes)
    (offsets : list Z) (base : option SnapT) (kw : Kwargs) : M SnapT :=
  b0 ← py_index blobs 0;
  base ←
    match b0 with
    | _ :: _ =>
        _ ← log 3 kw 3 (nl +:+ "------- PARSING VM SNAPSHOT --------" +:+ nl);
        d ← py_index blobs 0;
        d_off ← py_index offsets 0;
        i ← py_index blobs 1;
        i_off ← py_index offsets 1;
        s ← decode {| data := d; data_offset := d_off;
                       instructions := i; instructions_offset := i_off;
                       vm := true; base := None; kwargs := kw |};
        ret (Some s)
    | [] =>
        _ ← log 3 kw 3 "No base snapshot, skipping base snapshot parsing...";
        l1 ← py_index lengths 1;
        if l1 =? 0 then ret base else raise AssertionError
    end;
  _ ← log 3 kw 3 (nl +:+ "------- PARSING ISOLATE SNAPSHOT --------" +:+ nl);
  d ← py_index blobs 2;
  d_off ← py_index offsets 2;
  i ← py_index blobs 3;
  i_off ← py_index offsets 3;
  decode {| data := d; data_offset := d_off;
            instructions := i; instructions_offset := i_off;
            vm := false; base := base; kwargs := kw |}.

(** The part of [parse_appjit_snapshot] between the magic and the
    decoding: the four lengths, then the four blobs with their offsets. *)
Definition appjit_blobs (f : BinFile) : M (list Z * list bytes * list Z) :=
  '(b, f) ← f_read f (4 * 8);
  lengths ← lift (unpack_qqqq b);
  '(_, blobs, offsets) ← extract_blobs f [] [] lengths;
  ret (lengths, blobs, offsets).

(** The part of [parse_appjit_snapshot] after the magic has been read. *)
Definition appjit_after_magic (f : BinFile) (base : option SnapT)
    (kw : Kwargs) : M SnapT :=
  '(lengths, blobs, offsets) ← appjit_blobs f;
  appjit_decode lengths blobs offsets base kw.

Definition parse_appjit_snapshot (fname : string) (base : option SnapT)
    (kw : Kwargs) : M SnapT :=
  f ← py_open fname;
  '(b, f) ← f_read f 8;
  magic ← lift (unpack_Q b);
  _ ← (if magic =? kAppJITMagic then ret tt
        else log 3 kw 1 ("WARN: Magic not matching, got 0x" +:+ format_016x magic));
  appjit_after_magic f base kw.

(** *** parse_elf_snapshot *)

(** Whether the pyelftools import at the top of the module succeeded, and
    the library's [ELFFile] constructor with the section and symbol
    iteration it offers, as a function of the file's content. *)
Variable has_elftools : bool.
Variable ELFFile : bytes -> Res ELF.

(** [{ sym.name: sym.entry for table in tables for sym in table.iter_symbols() }]:
    a later symbol of the same name replaces an earlier one. *)
Definition symbol_index (tables : list (list Symbol)) : gmap string Entry :=
  foldl (fun m sym => <[name sym := entry sym]> m) ∅ (concat tables).

(** [0 <= s.st_value - S['sh_addr'] < S.data_size] *)
Definition in_section (s : Entry) (S : Section) : bool :=
  (0 <=? Z.of_N (st_value s) - Z.of_N (sh_addr S))
  && (Z.of_N (st_value s) - Z.of_N (sh_addr S) <? Z.of_N (data_size S)).

(** [section.data()[(s.st_value - section['sh_addr']):][:s.st_size]] *)
Definition slice_symbol (s : Entry) (section : Section) : bytes :=
  take (N.to_nat (st_size s))
    (drop (Z.to_nat (Z.of_N (st_value s) - Z.of_N (sh_addr section)))
       (sec_data section)).

(** One turn of [for s in kAppAOTSymbols]; the loop has no effect other
    than the exceptions it raises. *)
Definition elf_extract_blob (sections : list Section)
    (symbols : gmap string Entry) (blobs : list bytes) (offsets : list Z)
    (s : string) : Res (list bytes * list Z) :=
  match symbols !! s with
  | None => Raise (KeyError s)
  | Some s =>
      match List.find (in_section s) sections with
      | None => Raise StopIteration
      | Some section =>
          let blob := slice_symbol s section in
          if (length blob =? N.to_nat (st_size s))%nat
          then Ok (blobs ++ [blob], offsets ++ [Z.of_N (st_value s)])
          else Raise AssertionError
      end
  end.

Fixpoint elf_extract_blobs (sections : list Section)
    (symbols : gmap string Entry) (blobs : list bytes) (offsets : list Z)
    (names : list string) : Res (list bytes * list Z) :=
  match names with
  | [] => Ok (blobs, offsets)
  | s :: rest =>
      match elf_extract_blob sections symbols blobs offsets s with
      | Ok (blobs, offsets) =>
          elf_extract_blobs sections symbols blobs offsets rest
      | Raise e => Raise e
      end
  end.

(** The blobs and offsets [parse_elf_snapshot] takes out of an ELF file. *)
Definition elf_blobs (f : ELF) : Res (list bytes * list Z) :=
  let sections := elf_sections f in
  let tables := omap symtab sections in
  let symbols := symbol_index tables in
  elf_extract_blobs sections symbols [] [] kAppAOTSymbols.

(** [archs = { 'EM_386': 'ia32', 'EM_X86_64': 'x64', 'EM_ARM': 'arm',
    'EM_AARCH64': 'arm64' }] *)
Definition archs : gmap string string :=
  <["EM_386" := "ia32"]> (<["EM_X86_64" := "x64"]>
    (<["EM_ARM" := "arm"]> (<["EM_AARCH64" := "arm64"]> ∅))).

(** [archs.get(f['e_machine']) != res.arch.split('-')[0]
     or (f.elfclass == 64) != res.is_64] *)
Definition arch_mismatch (f : ELF) (res : SnapT) : bool :=
  negb (bool_decide (archs !! e_machine f = Some (split_dash_head (snap_arch res))))
  || negb (Bool.eqb (elfclass_int f =? 64) (snap_is_64 res)).

(** The part of [parse_elf_snapshot] after the loop. *)
Definition elf_decode (f : ELF) (blobs : list bytes) (offsets : list Z)
    (kw : Kwargs) : M SnapT :=
  _ ← log 4 kw 3 ("------- PARSING VM SNAPSHOT --------" +:+ nl);
  d ← py_index blobs 0;
  d_off ← py_index offsets 0;
  i ← py_index blobs 1;
  i_off ← py_index offsets 1;
  base ← decode {| data := d; data_offset := d_off;
                   instructions := i; instructions_offset := i_off;
                   vm := true; base := None; kwargs := kw |};
  _ ← log 4 kw 3 (nl +:+ "------- PARSING ISOLATE SNAPSHOT --------" +:+ nl);
  d ← py_index blobs 2;
  d_off ← py_index offsets 2;
  i ← py_index blobs 3;
  i_off ← py_index offsets 3;
  res ← decode {| data := d; data_offset := d_off;
                  instructions := i; instructions_offset := i_off;
                  vm := false; base := Some base; kwargs := kw |};
  _ ← (if arch_mismatch f res
       then log 4 kw 1 ("WARN: ELF arch (" +:+ e_machine f
                        +:+ ") and/or class (" +:+ elfclass_str f
                        +:+ ") not matching snapshot")
       else ret tt);
  ret res.

Definition parse_elf_snapshot (fname : string) (kw : Kwargs) : M SnapT :=
  if negb has_elftools then raise MissingElftools
  else
    fh ← py_open fname;
    f ← lift (ELFFile (content fh));
    '(blobs, offsets) ← lift (elf_blobs f);
    elf_decode f blobs offsets kw.

End Readers.

(** ** The specification's side of the page arithmetic *)

(** The aligned position in the specification's words:
    [ceil(current_position / page_size) * page_size], with the quotient taken
    in the rationals. *)
Definition spec_align (page_size tell : Z) : Z :=
  (Qceiling (inject_Z tell / inject_Z page_size) * page_size)%Z.

(** The specification's account of step 3: for each length in order, the
    aligned offset computed from the position before the blob, the number of
    bytes asked for, and the bytes the file has there. *)
Fixpoint spec_layout (page_size : Z) (c : bytes) (p : Z) (lengths : list Z)
    : list (Z * Z * bytes) :=
  match lengths with
  | [] => []
  | l :: rest =>
      let a := spec_align page_size p in
      let b := pread c a l in
      (a, l, b) :: spec_layout page_size c (a + Z.of_nat (length b)) rest
  end.

Definition layout_events {SnapT} (lay : list (Z * Z * bytes)) : list (@Event SnapT) :=
  flat_map (fun '(a, l, _) => [EvSeek a; EvRead l]) lay.

Definition layout_end (p : Z) (lay : list (Z * Z * bytes)) : Z :=
  match last lay with
  | Some (a, _, b) => a + Z.of_nat (length b)
  | None => p
  end.

(** The state after some more events. *)
Definition add_events {SnapT} (st : @St SnapT) (evs : list Event) : St :=
  {| files := files st; handles := handles st; events := events st ++ evs |}.

(** The two calls of the decoder: on the VM pair, and on the isolate pair
    with the base snapshot it is given. *)
Definition vm_call {SnapT} (d : bytes) (d_off : Z) (i : bytes) (i_off : Z)
    (kw : Kwargs) : @DecodeArgs SnapT :=
  {| data := d; data_offset := d_off;
     instructions := i; instructions_offset := i_off;
     vm := true; base := None; kwargs := kw |}.

Definition isolate_call {SnapT} (d : bytes) (d_off : Z) (i : bytes) (i_off : Z)
    (base : option SnapT) (kw : Kwargs) : @DecodeArgs SnapT :=
  {| data := d; data_offset := d_off;
     instructions := i; instructions_offset := i_off;
     vm := false; base := base; kwargs := kw |}.

(** The state after [open(fname, 'rb')] succeeded. *)
Definition opened {SnapT} (fname : string) (st : @St SnapT) : St :=
  {| files := files st; handles := fname :: handles st;
     events := events st ++ [EvOpen fname] |}.

(** The events of the magic check of the raw reader. *)
Definition magic_events {SnapT} (expected magic : Z) (kw : Kwargs)
    : list (@Event SnapT) :=
  if magic =? expected then []
  else [EvLog 1 ("WARN: Magic not matching, got 0x" +:+ format_016x magic)
          (1 <=? default 3 (print_level kw))].

(** The events of the architecture check of the ELF reader. *)
Definition arch_events {SnapT} (mismatch : bool) (f : ELF) (kw : Kwargs)
    : list (@Event SnapT) :=
  if mismatch
  then [EvLog 1 ("WARN: ELF arch (" +:+ e_machine f +:+ ") and/or class ("
                 +:+ elfclass_str f +:+ ") not matching snapshot")
          (1 <=? default 4 (print_level kw))]
  else [].

(** The calls to the decoder among some events. *)
Definition decodes {SnapT} (evs : list (@Event SnapT)) : list DecodeArgs :=
  omap (fun ev => match ev with EvDecode a => Some a | _ => None end) evs.

(** A computation that neither reads nor changes anything of the state but
    the list of events it appends to: its result and its events are the same
    from every state. *)
Definition oblivious {SnapT A} (m : @M SnapT A) : Prop :=
  exists r evs, forall st, m st = (r, add_events st evs).

(** Two runs of the blob loop that performed the same events and ended the
    same way with the same blobs and offsets; the file objects they return
    are not compared. *)
Definition same_blobs {SnapT}
    (x y : Res (BinFile * list bytes * list Z) * @St SnapT) : Prop :=
  x.2 = y.2
  /\ match x.1, y.1 with
     | Ok (_, bl, offs), Ok (_, bl', offs') => bl = bl' /\ offs = offs'
     | Raise e, Raise e' => e = e'
     | _, _ => False
     end.

(** The exceptions the extraction loop of the ELF reader raises: a missing
    symbol name, a symbol address in no section, a slice shorter than the
    symbol's size. *)
Definition extraction_error (e : Exn) : Prop :=
  (exists key, e = KeyError key) \/ e = StopIteration \/ e = AssertionError.

(** The address of a symbol lies in a section's range
    [[sh_addr, sh_addr + data_size)]. *)
Definition in_range (s : Entry) (S : Section) : Prop :=
  (sh_addr S <= st_value s < sh_addr S + data_size S)%N.

(** A call of [log] as a reader whose default print level is [dflt] makes
    it: at level 1 or 3, the line printed exactly when the print level is
    at least the level of the call.  Other events are not constrained. *)
Definition reader_log {SnapT} (dflt : Z) (kw : Kwargs) (ev : @Event SnapT)
    : Prop :=
  match ev with
  | EvLog n _ p => (n = 1 \/ n = 3) /\ p = (n <=? default dflt (print_level kw))
  | _ => True
  end.

(** A computation that only appends events, all of which satisfy [P]. *)
Definition appends {SnapT A} (P : @Event SnapT -> Prop) (m : @M SnapT A)
    : Prop :=
  exists r evs, (forall st, m st = (r, add_events st evs)) /\ Forall P evs.

(** A size [f.read] accepts. *)
Definition readable_size (l : Z) : Prop := -1 <= l.

(** The header of a raw container as the reader decodes it: the magic from
    bytes 0..7, the four lengths from bytes 8..39. *)
Definition appjit_header (c : bytes) : Res (Z * list Z) :=
  match unpack_Q (pread c 0 8), unpack_qqqq (pread c 8 (4 * 8)) with
  | Ok magic, Ok lengths => Ok (magic, lengths)
  | _, _ => Raise StructError
  end.

(** A raw container is well formed when its magic is the expected one, its
    four lengths are non-negative, a zero data length for the base snapshot
    comes with a zero instructions length, and the file holds every blob in
    full at its page boundary. *)
Definition well_formed_appjit (magic page_size : Z) (c : bytes) : bool :=
  match appjit_header c with
  | Ok (m, lengths) =>
      (m =? magic) && forallb (Z.leb 0) lengths
      && match lengths with
         | l0 :: l1 :: _ => (negb (l0 =? 0)) || (l1 =? 0)
         | _ => false
         end
      && forallb (fun '(_, l, b) => Z.of_nat (length b) =? l)
           (spec_layout page_size c 40 lengths)
  | Raise _ => false
  end.

Fixpoint strictly_increasing (l : list Z) : bool :=
  match l with
  | a :: (b :: _) as rest => (a <? b) && strictly_increasing rest
  | _ => true
  end.

(** ** Sample containers *)

Definition byte_of_Z (z : Z) : byte := default x00 (Byte.of_N (Z.to_N z)).

(** [struct.pack] of one 64-bit little-endian word. *)
Fixpoint le_bytes (k : nat) (n : Z) : bytes :=
  match k with
  | O => []
  | S k' => byte_of_Z (n mod 256) :: le_bytes k' (n / 256)
  end.

Definition pack_header (magic : Z) (lengths : list Z) : bytes :=
  le_bytes 8 magic ++ concat (map (fun l => le_bytes 8 (l mod 2 ^ 64)) lengths).

Definition pad_to (n : nat) (bs : bytes) : bytes :=
  bs ++ replicate (n - length bs) x00.

(** A decoder that accepts everything and answers with an x64 snapshot that
    remembers whether it was built as the VM snapshot. *)
Record SampleSnap := { sample_vm : bool; sample_arch : string; sample_is_64 : bool }.

Definition sample_parse (a : @DecodeArgs SampleSnap) : Res SampleSnap :=
  Ok {| sample_vm := vm a; sample_arch := "x64-release"; sample_is_64 := true |}.

Definition sample_magic : Z := 0xdcdcf5f5.

Definition sample_state (c : bytes) : @St SampleSnap :=
  {| files := {[ "app.snapshot" := c ]}; handles := []; events := [] |}.

(** The specification's end-to-end scenario: lengths [0, 0, 120, 340] and a
    page size of 4096. *)
Definition isolate_only_image : bytes :=
  pad_to 4096 (pack_header sample_magic [0; 0; 120; 340])
  ++ pad_to 4096 (replicate 120 x01) ++ replicate 340 x02.

(** The same container cut short ten bytes into the isolate data: the header
    still declares 120 and 340 bytes. *)
Definition truncated_image : bytes :=
  pad_to 4096 (pack_header sample_magic [0; 0; 120; 340]) ++ replicate 10 x01.

(** The malformed scenario of the specification: lengths [0, 8, 50, 50]. *)
Definition orphan_instructions_image : bytes :=
  pad_to 4096 (pack_header sample_magic [0; 8; 50; 50])
  ++ pad_to 4096 (replicate 8 x03) ++ pad_to 4096 (replicate 50 x01)
  ++ replicate 50 x02.

Definition no_kwargs : Kwargs := {| print_level := None |}.

(** The raw reader on a sample container. *)
Definition sample_appjit_run (c : bytes) : Res SampleSnap * @St SampleSnap :=
  parse_appjit_snapshot sample_parse sample_magic 4096 "app.snapshot" None
    no_kwargs (sample_state c).

(** The file object of the raw reader once the magic has been read. *)
Definition sample_appjit_file (c : bytes) : BinFile := {| content := c; pos := 8 |}.

(** An ELF container after the specification's scenario: four symbols of
    sizes 64, 128, 256 and 512 in four sections, and one symbol table. *)
Definition sample_symbols : list string :=
  ["_kDartVmSnapshotData"; "_kDartVmSnapshotInstructions";
   "_kDartIsolateSnapshotData"; "_kDartIsolateSnapshotInstructions"].

Definition sample_section (addr size : N) (fill : byte) : Section :=
  {| sh_addr := addr; data_size := size;
     sec_data := replicate (N.to_nat size) fill; symtab := None |}.

Definition sample_symtab : Section :=
  {| sh_addr := 0; data_size := 0; sec_data := [];
     symtab := Some
       [ {| name := "_kDartVmSnapshotData";
            entry := {| st_value := 0x1000; st_size := 64 |} |};
         {| name := "_kDartVmSnapshotInstructions";
            entry := {| st_value := 0x2000; st_size := 128 |} |};
         {| name := "_kDartIsolateSnapshotData";
            entry := {| st_value := 0x3000; st_size := 256 |} |};
         {| name := "_kDartIsolateSnapshotInstructions";
            entry := {| st_value := 0x4000; st_size := 512 |} |};
         {| name := "_stray"; entry := {| st_value := 0x9000; st_size := 4 |} |} ] |}.

Definition sample_elf : ELF :=
  {| elf_sections :=
       [ sample_section 0x1000 64 x01; sample_section 0x2000 128 x02;
         sample_section 0x3000 256 x03; sample_section 0x4000 512 x04;
         sample_symtab ];
     e_machine := "EM_X86_64";
     elfclass := ELFCLASS64 |}.

Definition sample_elf_state : @St SampleSnap :=
  {| files := {[ "libapp.so" := [] ]}; handles := []; events := [] |}.

(** A decoder that answers with an arm snapshot, whatever the container. *)
Definition arm_parse (a : @DecodeArgs SampleSnap) : Res SampleSnap :=
  Ok {| sample_vm := vm a; sample_arch := "arm-release"; sample_is_64 := false |}.

(** The ELF reader on the sample container, for a list of required names
    and a decoder. *)
Definition sample_elf_run (names : list string)
    (parse : @DecodeArgs SampleSnap -> Res SampleSnap)
    : Res SampleSnap * @St SampleSnap :=
  parse_elf_snapshot sample_arch sample_is_64 parse names true
    (fun _ => Ok sample_elf) "libapp.so" no_kwargs sample_elf_state.


(** The isolate-only container with another magic. *)
Definition bad_magic_image : bytes :=
  pad_to 4096 (pack_header 0x1234 [0; 0; 120; 340])
  ++ pad_to 4096 (replicate 120 x01) ++ replicate 340 x02.

(** The raw reader on a sample container, from a state in which only that
    file exists, at a given print level. *)
Definition sample_appjit_run_at (level : option Z) (c : bytes)
    : Res SampleSnap * @St SampleSnap :=
  parse_appjit_snapshot sample_parse sample_magic 4096 "app.snapshot" None
    {| print_level := level |}
    {| files := <["app.snapshot" := c]> ∅; handles := []; events := [] |}.

(** The first twenty bytes of the container with the other magic: a magic
    and half of the lengths. *)
Definition short_image : bytes := take 20 bad_magic_image.

(** A container with a base snapshot of its own: 16 and 32 bytes for the VM
    pair, 120 and 340 for the isolate pair. *)
Definition full_image : bytes :=
  pad_to 4096 (pack_header sample_magic [16; 32; 120; 340])
  ++ pad_to 4096 (replicate 16 x05) ++ pad_to 4096 (replicate 32 x06)
  ++ pad_to 4096 (replicate 120 x01) ++ replicate 340 x02.

(** A decoder that fails on every VM snapshot. *)
Definition failing_vm_parse (a : @DecodeArgs SampleSnap) : Res SampleSnap :=
  if vm a then Raise (DecoderError 1) else sample_parse a.

(** Two symbol tables that both define the same name. *)
Definition duplicate_tables : list (list Symbol) :=
  [ [ {| name := "_kDartVmSnapshotData";
         entry := {| st_value := 0x1000; st_size := 64 |} |};
      {| name := "_other"; entry := {| st_value := 0x10; st_size := 1 |} |} ];
    [ {| name := "_kDartVmSnapshotData";
         entry := {| st_value := 0x5000; st_size := 8 |} |};
      {| name := "_last"; entry := {| st_value := 0x20; st_size := 2 |} |} ] ].


(** ** Properties *)

Section Properties.

Context {SnapT : Type}.
Variable snap_arch : SnapT -> string.
Variable snap_is_64 : SnapT -> bool.
Variable Snapshot_parse : @DecodeArgs SnapT -> Res SnapT.
Variable kAppAOTSymbols : list string.
Variable kAppJITMagic : Z.
Variable kAppSnapshotPageSize : Z.
Variable has_elftools : bool.
Variable ELFFile : bytes -> Res ELF.

Local Abbreviation page := kAppSnapshotPageSize.
Local Abbreviation St := (@St SnapT).
Local Abbreviation Event := (@Event SnapT).

(** *** The monad's equations *)

Lemma add_events_nil (st : St) : add_events st [] = st.
Proof. destruct st; unfold add_events; cbn; by rewrite app_nil_r. Qed.

Lemma add_events_app (st : St) evs1 evs2 :
  add_events (add_events st evs1) evs2 = add_events st (evs1 ++ evs2).
Proof. unfold add_events; cbn; by rewrite app_assoc. Qed.

Lemma run_bind {A B} (m : M A) (k : A -> M B) (st : St) :
  (m ≫= k) st =
  match m st with
  | (Ok a, st') => k a st'
  | (Raise e, st') => (Raise e, st')
  end.
Proof. reflexivity. Qed.

Lemma run_emit {B} (ev : Event) (k : unit -> M B) (st : St) :
  (emit ev ≫= k) st = k tt (add_events st [ev]).
Proof. reflexivity. Qed.

Lemma run_log {B} dflt kw n x (k : unit -> M B) (st : St) :
  (log dflt kw n x ≫= k) st =
  k tt (add_events st [EvLog n x (n <=? default dflt (print_level kw))]).
Proof. reflexivity. Qed.

(** *** Page alignment *)

Lemma spec_align_eq tell :
  0 < page -> spec_align page tell = - (- tell / page) * page.
Proof.
  intros Hp. unfold spec_align. f_equal.
  destruct page as [|p|p] eqn:E; try lia.
  unfold Qceiling, Qfloor, Qdiv, Qinv, Qmult, Qopp, inject_Z; cbn.
  rewrite Z.mul_1_r. reflexivity.
Qed.

Lemma floor_ceil tell :
  0 < page -> (tell - 1) / page + 1 = - (- tell / page).
Proof.
  intros Hp.
  assert (H : - tell / page = - ((tell - 1) / page) - 1).
  { symmetry. apply (Z.div_unique _ _ _ (page - (tell - 1) mod page - 1)).
    - left. pose proof (Z.mod_pos_bound (tell - 1) page Hp). lia.
    - pose proof (Z.div_mod (tell - 1) page ltac:(lia)). nia. }
  lia.
Qed.

Lemma page_align_spec tell :
  0 < page -> page_align page tell = Ok (spec_align page tell).
Proof.
  intros Hp. unfold page_align.
  destruct (page =? 0) eqn:E; [lia|].
  by rewrite spec_align_eq, floor_ceil.
Qed.

(** The aligned position is the least multiple of the page size that is
    not below the position. *)
Lemma spec_align_least tell :
  0 < page ->
  (page | spec_align page tell) /\ tell <= spec_align page tell
  /\ forall m, (page | m) -> tell <= m -> spec_align page tell <= m.
Proof.
  intros Hp. rewrite spec_align_eq by done.
  pose proof (Z.div_mod (- tell) page ltac:(lia)) as Hd.
  pose proof (Z.mod_pos_bound (- tell) page Hp) as Hm.
  split; [|split].
  - by exists (- (- tell / page)).
  - nia.
  - intros m [k ->] Hk.
    assert (- (- tell / page) <= k); [|nia].
    destruct (Z_le_gt_dec (- (- tell / page)) k) as [|Hgt]; [done|exfalso].
    assert (k + 1 <= - (- tell / page)) by lia. nia.
Qed.

Lemma spec_align_aligned tell :
  0 < page -> (page | tell) -> spec_align page tell = tell.
Proof.
  intros Hp Hd. destruct (spec_align_least tell Hp) as (_ & Hle & Hleast).
  specialize (Hleast tell Hd ltac:(lia)). lia.
Qed.

(** *** The loop of the raw reader *)

Lemma run_lift {A B} (r : Res A) (k : A -> M B) (st : St) :
  (lift r ≫= k) st =
  match r with Ok a => k a st | Raise e => (Raise e, st) end.
Proof. by destruct r. Qed.

Lemma f_seek_run (f : BinFile) target (st : St) :
  f_seek f target st =
  (if target <? 0 then Raise OSError
   else Ok {| content := content f; pos := target |},
   add_events st [EvSeek target]).
Proof. unfold f_seek. rewrite run_emit. by destruct (target <? 0). Qed.

Lemma f_read_run (f : BinFile) size (st : St) :
  f_read f size st =
  (if size <? -1 then Raise ValueError
   else Ok (pread (content f) (pos f) size,
            {| content := content f;
               pos := pos f + Z.of_nat (length (pread (content f) (pos f) size)) |}),
   add_events st [EvRead size]).
Proof. unfold f_read. rewrite run_emit. by destruct (size <? -1). Qed.

(** One turn of the loop, whatever the length: the cursor is moved to the
    aligned position, that position is appended to the offsets, and the
    declared length is what is asked of [read]. *)
Lemma extract_blob_run (f : BinFile) blobs offsets l (st : St) :
  0 < page -> 0 <= pos f ->
  extract_blob page f blobs offsets l st =
  let a := spec_align page (pos f) in
  let b := pread (content f) a l in
  (if l <? -1 then Raise ValueError
   else Ok ({| content := content f; pos := a + Z.of_nat (length b) |},
            blobs ++ [b], offsets ++ [a]),
   add_events st [EvSeek a; EvRead l]).
Proof.
  intros Hp Hpos. unfold extract_blob, f_tell.
  rewrite run_lift, page_align_spec by done.
  rewrite run_bind, f_seek_run.
  destruct (spec_align_least (pos f) Hp) as (_ & Hle & _).
  destruct (spec_align page (pos f) <? 0) eqn:E; [lia|].
  rewrite run_bind, f_read_run, add_events_app. cbn.
  by destruct (l <? -1).
Qed.

Lemma layout_end_cons p a l b lay :
  layout_end p ((a, l, b) :: lay) = layout_end (a + Z.of_nat (length b)) lay.
Proof.
  unfold layout_end. destruct lay as [|x lay']; [done|].
  rewrite last_cons_cons.
  destruct (last (x :: lay')) as [[[? ?] ?]|] eqn:E; [done|].
  by apply last_None in E.
Qed.

Lemma extract_blobs_run lengths : forall (f : BinFile) blobs offsets (st : St),
  0 < page -> 0 <= pos f -> Forall readable_size lengths ->
  let lay := spec_layout page (content f) (pos f) lengths in
  extract_blobs page f blobs offsets lengths st =
  (Ok ({| content := content f; pos := layout_end (pos f) lay |},
       blobs ++ (snd <$> lay), offsets ++ ((fun x => x.1.1) <$> lay)),
   add_events st (layout_events lay)).
Proof.
  induction lengths as [|l rest IH]; intros f blobs offsets st Hp Hpos Hall.
  - cbn. rewrite !app_nil_r, add_events_nil. by destruct f.
  - apply Forall_cons in Hall as [Hl Hrest]. unfold readable_size in Hl.
    cbn [extract_blobs]. rewrite run_bind, extract_blob_run by done.
    cbn zeta. destruct (l <? -1) eqn:E; [lia|].
    destruct (spec_align_least (pos f) Hp) as (_ & Hle & _).
    rewrite IH by (try done; cbn; lia).
    cbn [content pos spec_layout fmap list_fmap fst snd layout_events flat_map].
    rewrite add_events_app, <- !app_assoc, layout_end_cons.
    reflexivity.
Qed.


(** *** The recorded offsets *)

Lemma spec_layout_aligned lengths : forall c p,
  0 < page ->
  Forall (fun x => (page | x.1.1)) (spec_layout page c p lengths).
Proof.
  induction lengths as [|l rest IH]; intros c p Hp; cbn; [done|].
  constructor; [|by apply IH].
  cbn. by destruct (spec_align_least p Hp) as (Hdiv & _).
Qed.

Lemma spec_layout_step lengths : forall c p i x y,
  0 < page ->
  spec_layout page c p lengths !! i = Some x ->
  spec_layout page c p lengths !! S i = Some y ->
  x.1.1 <= y.1.1 /\ (x.1.1 < y.1.1 <-> x.2 <> []).
Proof.
  induction lengths as [|l rest IH]; intros c p i x y Hp Hx Hy; [done|].
  cbn [spec_layout] in Hx, Hy. cbn zeta in Hx, Hy.
  destruct i as [|i]; [|by eapply IH].
  cbn in Hx. injection Hx as <-. cbn [fst snd].
  destruct rest as [|l' rest']; [done|].
  cbn in Hy. injection Hy as <-. cbn [fst snd].
  destruct (spec_align_least p Hp) as (Hdiv & _ & _).
  set (a := spec_align page p) in *.
  destruct (pread c a l) as [|b0 b] eqn:Eb.
  - cbn [length]. rewrite Z.add_0_r, spec_align_aligned by done.
    split; [lia|]. split; [lia|done].
  - destruct (spec_align_least (a + Z.of_nat (length (b0 :: b))) Hp)
      as (_ & Hle & _).
    cbn [length] in *. split; [lia|]. split; [done|lia].
Qed.

Lemma extract_blobs_readable lengths : forall (f : BinFile) blobs offsets (st : St) r st',
  0 < page -> 0 <= pos f ->
  extract_blobs page f blobs offsets lengths st = (Ok r, st') ->
  Forall readable_size lengths.
Proof.
  induction lengths as [|l rest IH]; intros f blobs offsets st r st' Hp Hpos Hrun;
    [done|].
  cbn [extract_blobs] in Hrun.
  rewrite run_bind, extract_blob_run in Hrun by done. cbn zeta in Hrun.
  destruct (l <? -1) eqn:E; [done|].
  constructor; [unfold readable_size; lia|].
  eapply IH; [done| |exact Hrun].
  destruct (spec_align_least (pos f) Hp) as (_ & Hle & _). cbn. lia.
Qed.

Lemma appjit_blobs_inv (f : BinFile) (st : St) lengths blobs offsets st' :
  0 < page -> 0 <= pos f ->
  appjit_blobs page f st = (Ok (lengths, blobs, offsets), st') ->
  exists p, 0 <= p
    /\ unpack_qqqq (pread (content f) (pos f) (4 * 8)) = Ok lengths
    /\ Forall readable_size lengths
    /\ blobs = snd <$> spec_layout page (content f) p lengths
    /\ offsets = (fun x => x.1.1) <$> spec_layout page (content f) p lengths
    /\ st' = add_events st
               (EvRead (4 * 8) :: layout_events (spec_layout page (content f) p lengths)).
Proof.
  intros Hp Hpos Hrun. unfold appjit_blobs in Hrun.
  rewrite run_bind, f_read_run in Hrun. cbn [Z.ltb Z.mul Z.compare] in Hrun.
  change (4 * 8 <? -1) with false in Hrun. cbn iota beta in Hrun.
  rewrite run_lift in Hrun.
  destruct (unpack_qqqq _) as [lens|e] eqn:Elens; [|done].
  rewrite run_bind in Hrun.
  match type of Hrun with
  | context [extract_blobs page ?f' [] [] lens ?s] =>
      destruct (extract_blobs page f' [] [] lens s) as [[[[f2 bl] offs]|e] st2] eqn:Eloop;
      [|done]
  end.
  pose proof Eloop as Hread.
  apply extract_blobs_readable in Hread; [|done|cbn; lia].
  rewrite extract_blobs_run in Eloop by (try done; cbn; lia).
  cbn zeta in Eloop. cbn [content pos app] in Eloop.
  injection Eloop as <- <- <- <-. injection Hrun as <- <- <- <-.
  exists (pos f + Z.of_nat (length (pread (content f) (pos f) (4 * 8)))).
  split; [lia|]. repeat (split; [done|]).
  by rewrite add_events_app.
Qed.

(** C4 (amended): the offsets the raw reader records are multiples of the
    page size and never decrease; an offset is strictly above the one
    before it exactly when the blob read at the earlier offset is not
    empty (an empty blob leaves the cursor on the page boundary, which is
    its own alignment). *)
Theorem appjit_offsets_aligned_nondecreasing
    (f : BinFile) (st : St) lengths blobs offsets st' :
  0 < page -> 0 <= pos f ->
  appjit_blobs page f st = (Ok (lengths, blobs, offsets), st') ->
  Forall (fun a => (page | a)) offsets
  /\ forall i a a' b,
       offsets !! i = Some a -> offsets !! S i = Some a' ->
       blobs !! i = Some b ->
       a <= a' /\ (a < a' <-> b <> []).
Proof.
  intros Hp Hpos Hrun.
  destruct (appjit_blobs_inv _ _ _ _ _ _ Hp Hpos Hrun)
    as (p & Hp0 & _ & _ & -> & -> & _).
  split.
  - apply Forall_fmap. by apply spec_layout_aligned.
  - intros i a a' b Ha Ha' Hb.
    rewrite list_lookup_fmap in Ha. rewrite list_lookup_fmap in Ha'.
    rewrite list_lookup_fmap in Hb.
    destruct (spec_layout page (content f) p lengths !! i) as [x|] eqn:Ex; [|done].
    destruct (spec_layout page (content f) p lengths !! S i) as [y|] eqn:Ey; [|done].
    cbn in Ha, Ha', Hb. injection Ha as <-. injection Ha' as <-. injection Hb as <-.
    by eapply spec_layout_step.
Qed.

(** *** The raw reader as a whole *)

Lemma unpack_Q_length b magic : unpack_Q b = Ok magic -> length b = 8%nat.
Proof.
  unfold unpack_Q. destruct (length b =? 8)%nat eqn:E; [|done].
  intros _. by apply Nat.eqb_eq.
Qed.

Lemma unpack_qqqq_length b lengths :
  unpack_qqqq b = Ok lengths -> length b = 32%nat /\ length lengths = 4%nat.
Proof.
  unfold unpack_qqqq. destruct (length b =? 32)%nat eqn:E; [|done].
  intros [= <-]. split; [by apply Nat.eqb_eq|done].
Qed.

Lemma appjit_header_inv c magic lengths :
  appjit_header c = Ok (magic, lengths) ->
  unpack_Q (pread c 0 8) = Ok magic
  /\ unpack_qqqq (pread c 8 (4 * 8)) = Ok lengths.
Proof.
  unfold appjit_header.
  destruct (unpack_Q _) as [m|]; [|done].
  destruct (unpack_qqqq _) as [ls|]; [|done].
  by intros [= <- <-].
Qed.

(** Up to the end of the loop the raw reader is determined by the header:
    it opens the file, reads the magic, warns if it is not the expected
    one, reads the lengths and walks the layout. *)
Lemma parse_appjit_run fname base kw (st : St) c magic lengths :
  0 < page ->
  files st !! fname = Some c ->
  appjit_header c = Ok (magic, lengths) ->
  Forall readable_size lengths ->
  let lay := spec_layout page c 40 lengths in
  parse_appjit_snapshot Snapshot_parse kAppJITMagic page fname base kw st =
  appjit_decode Snapshot_parse lengths (snd <$> lay) ((fun x => x.1.1) <$> lay)
    base kw
    (add_events (opened fname st)
       (EvRead 8 :: magic_events kAppJITMagic magic kw
        ++ EvRead (4 * 8) :: layout_events lay)).
Proof.
  intros Hp Hfile Hhdr Hall lay.
  apply appjit_header_inv in Hhdr as [Hm Hl].
  pose proof (unpack_Q_length _ _ Hm) as Hlen8.
  pose proof (unpack_qqqq_length _ _ Hl) as [Hlen32 _].
  unfold parse_appjit_snapshot.
  rewrite run_bind. unfold py_open at 1. rewrite Hfile.
  rewrite run_bind, f_read_run. cbn [content pos].
  change (8 <? -1) with false. cbn iota beta.
  rewrite run_lift, Hm, Hlen8.
  assert (Hdec : forall (s : St),
    appjit_after_magic Snapshot_parse page {| content := c; pos := 0 + Z.of_nat 8 |}
      base kw s =
    appjit_decode Snapshot_parse lengths (snd <$> lay) ((fun x => x.1.1) <$> lay)
      base kw (add_events s (EvRead (4 * 8) :: layout_events lay))).
  { intros s. unfold appjit_after_magic, appjit_blobs.
    rewrite !run_bind, f_read_run. cbn [content pos].
    change (4 * 8 <? -1) with false. cbn iota beta.
    change (0 + Z.of_nat 8) with 8.
    rewrite run_lift, Hl, Hlen32.
    rewrite run_bind, extract_blobs_run by (try done; cbn; lia).
    cbn zeta. cbn [content pos app].
    change (8 + Z.of_nat 32) with 40. fold lay.
    by rewrite add_events_app. }
  unfold magic_events. destruct (magic =? kAppJITMagic).
  - rewrite run_bind. cbn [ret]. rewrite Hdec, add_events_app. reflexivity.
  - rewrite run_log, Hdec, !add_events_app. reflexivity.
Qed.

(** The decoding part of the raw reader on four blobs: the choice between
    the two branches looks at the bytes of the first blob only. *)
Lemma appjit_decode_run l0 l1 l2 l3 (b0 b1 b2 b3 : bytes) o0 o1 o2 o3
    base kw (st : St) :
  appjit_decode Snapshot_parse [l0; l1; l2; l3] [b0; b1; b2; b3]
    [o0; o1; o2; o3] base kw st =
  let say n x := EvLog n x (n <=? default 3 (print_level kw)) : Event in
  let vm_line := say 3 (nl +:+ "------- PARSING VM SNAPSHOT --------" +:+ nl) in
  let skip_line := say 3 "No base snapshot, skipping base snapshot parsing..." in
  let iso_line := say 3 (nl +:+ "------- PARSING ISOLATE SNAPSHOT --------" +:+ nl) in
  match b0 with
  | _ :: _ =>
      match Snapshot_parse (vm_call b0 o0 b1 o1 kw) with
      | Ok s =>
          (Snapshot_parse (isolate_call b2 o2 b3 o3 (Some s) kw),
           add_events st [vm_line; EvDecode (vm_call b0 o0 b1 o1 kw); iso_line;
                          EvDecode (isolate_call b2 o2 b3 o3 (Some s) kw)])
      | Raise e =>
          (Raise e, add_events st [vm_line; EvDecode (vm_call b0 o0 b1 o1 kw)])
      end
  | [] =>
      if l1 =? 0 then
        (Snapshot_parse (isolate_call b2 o2 b3 o3 base kw),
         add_events st [skip_line; iso_line;
                        EvDecode (isolate_call b2 o2 b3 o3 base kw)])
      else (Raise AssertionError, add_events st [skip_line])
  end.
Proof.
  unfold appjit_decode, py_index, log, decode, vm_call, isolate_call, add_events.
  unfold mbind, M_bind, bind, ret, raise, emit, lift.
  destruct b0 as [|x b0]; cbn -[Z.leb String.append nl].
  - destruct (l1 =? 0); cbn -[Z.leb String.append nl].
    all: by rewrite <- ?app_assoc.
  - destruct (Snapshot_parse _) as [s|e]; cbn -[Z.leb String.append nl].
    all: by rewrite <- ?app_assoc.
Qed.

(** *** Which events call the decoder *)

Lemma decodes_app (evs1 evs2 : list Event) :
  decodes (evs1 ++ evs2) = decodes evs1 ++ decodes evs2.
Proof. apply omap_app. Qed.









(** *** Computations that only append events *)

Create HintDb oblivious.

Lemma oblivious_ret {A} (a : A) : oblivious (SnapT:=SnapT) (ret a).
Proof. exists (Ok a), []. intros st. by rewrite add_events_nil. Qed.

Lemma oblivious_raise {A} e : oblivious (SnapT:=SnapT) (A:=A) (raise e).
Proof. exists (Raise e), []. intros st. by rewrite add_events_nil. Qed.

Lemma oblivious_lift {A} (r : Res A) : oblivious (SnapT:=SnapT) (lift r).
Proof. exists r, []. intros st. by rewrite add_events_nil. Qed.

Lemma oblivious_emit (ev : Event) : oblivious (emit ev).
Proof. by exists (Ok tt), [ev]. Qed.

Lemma oblivious_bind {A B} (m : M A) (k : A -> M B) :
  oblivious (SnapT:=SnapT) m -> (forall a, oblivious (k a)) -> oblivious (m ≫= k).
Proof.
  intros (r & evs & Hm) Hk. destruct r as [a|e].
  - destruct (Hk a) as (r' & evs' & Hka). exists r', (evs ++ evs').
    intros st. by rewrite run_bind, Hm, Hka, add_events_app.
  - exists (Raise e), evs. intros st. by rewrite run_bind, Hm.
Qed.

Ltac oblivious_step :=
  first
    [ apply oblivious_ret | apply oblivious_raise | apply oblivious_lift
    | apply oblivious_emit | solve [auto with oblivious]
    | apply oblivious_bind; [|intros ?]
    | match goal with
      | |- oblivious (match ?x with _ => _ end) => destruct x
      | |- oblivious (if ?x then _ else _) => destruct x
      end ].

Ltac oblivious_tac := repeat oblivious_step.

Lemma oblivious_log dflt kw n x : oblivious (SnapT:=SnapT) (log dflt kw n x).
Proof. unfold log. oblivious_tac. Qed.
#[local] Hint Resolve oblivious_log : oblivious.

Lemma oblivious_f_read (f : BinFile) size : oblivious (SnapT:=SnapT) (f_read f size).
Proof. unfold f_read. oblivious_tac. Qed.
#[local] Hint Resolve oblivious_f_read : oblivious.

Lemma oblivious_f_seek (f : BinFile) target :
  oblivious (SnapT:=SnapT) (f_seek f target).
Proof. unfold f_seek. oblivious_tac. Qed.
#[local] Hint Resolve oblivious_f_seek : oblivious.

Lemma oblivious_py_index {A} (l : list A) i : oblivious (SnapT:=SnapT) (py_index l i).
Proof. unfold py_index. oblivious_tac. Qed.
#[local] Hint Resolve oblivious_py_index : oblivious.

Lemma oblivious_decode args : oblivious (decode Snapshot_parse args).
Proof. unfold decode. oblivious_tac. Qed.
#[local] Hint Resolve oblivious_decode : oblivious.

Lemma oblivious_extract_blob (f : BinFile) blobs offsets l :
  oblivious (SnapT:=SnapT) (extract_blob page f blobs offsets l).
Proof. unfold extract_blob. oblivious_tac. Qed.
#[local] Hint Resolve oblivious_extract_blob : oblivious.

Lemma oblivious_extract_blobs lengths : forall (f : BinFile) blobs offsets,
  oblivious (SnapT:=SnapT) (extract_blobs page f blobs offsets lengths).
Proof.
  induction lengths as [|l rest IH]; intros f blobs offsets; cbn [extract_blobs].
  - oblivious_tac.
  - apply oblivious_bind; [apply oblivious_extract_blob|].
    intros [[f' bl] offs]. apply IH.
Qed.
#[local] Hint Resolve oblivious_extract_blobs : oblivious.

Lemma oblivious_appjit_decode lengths blobs offsets base kw :
  oblivious (appjit_decode Snapshot_parse lengths blobs offsets base kw).
Proof.
  unfold appjit_decode.
  oblivious_tac.
Qed.
#[local] Hint Resolve oblivious_appjit_decode : oblivious.

Lemma oblivious_appjit_after_magic (f : BinFile) base kw :
  oblivious (appjit_after_magic Snapshot_parse page f base kw).
Proof. unfold appjit_after_magic, appjit_blobs. oblivious_tac. Qed.
#[local] Hint Resolve oblivious_appjit_after_magic : oblivious.

(** *** The first eight bytes do not matter after the magic check *)

Lemma pread_agree c c' p n :
  8 <= p -> drop 8 c = drop 8 c' -> pread c p n = pread c' p n.
Proof.
  intros Hp Heq. unfold pread.
  replace (Z.to_nat p) with (8 + (Z.to_nat p - 8))%nat by lia.
  by rewrite <- !drop_drop, Heq.
Qed.

Lemma extract_blobs_agree lengths : forall c c' p blobs offsets (st : St),
  0 < page -> 8 <= p -> drop 8 c = drop 8 c' ->
  same_blobs
    (extract_blobs page {| content := c; pos := p |} blobs offsets lengths st)
    (extract_blobs page {| content := c'; pos := p |} blobs offsets lengths st).
Proof.
  induction lengths as [|l rest IH]; intros c c' p blobs offsets st Hp Hpos Heq.
  - by cbn.
  - cbn [extract_blobs]. rewrite !run_bind, !extract_blob_run by (try done; cbn; lia).
    cbn zeta. cbn [content pos].
    destruct (spec_align_least p Hp) as (_ & Hle & _).
    rewrite (pread_agree c c' (spec_align page p) l) by (try done; lia).
    destruct (l <? -1); [by cbn|].
    apply IH; [done|lia|done].
Qed.

Lemma appjit_after_magic_agree c c' base kw (st : St) :
  0 < page -> drop 8 c = drop 8 c' ->
  appjit_after_magic Snapshot_parse page {| content := c; pos := 8 |} base kw st
  = appjit_after_magic Snapshot_parse page {| content := c'; pos := 8 |} base kw st.
Proof.
  intros Hp Heq. unfold appjit_after_magic, appjit_blobs.
  rewrite !run_bind, !f_read_run. cbn [content pos].
  rewrite (pread_agree c c' 8 (4 * 8)) by done.
  change (4 * 8 <? -1) with false. cbn iota beta.
  rewrite !run_lift. destruct (unpack_qqqq _) as [lengths|e]; [|done].
  rewrite !run_bind.
  match goal with
  | |- context [extract_blobs page {| content := c; pos := ?p |} [] [] lengths ?s] =>
      pose proof (extract_blobs_agree lengths c c' p [] [] s Hp
                    ltac:(lia) Heq) as [Hst Hres]
  end.
  destruct (extract_blobs page {| content := c; pos := _ |} _ _ _ _)
    as [[[[f1 bl1] offs1]|e1] s1];
  destruct (extract_blobs page {| content := c'; pos := _ |} _ _ _ _)
    as [[[[f2 bl2] offs2]|e2] s2]; cbn in Hst, Hres; try done.
  - destruct Hres as [-> ->]. by subst.
  - by subst.
Qed.

(** C7: a magic that is not the expected constant never makes the raw reader
    raise.  Compared with the same file carrying the expected magic, the run
    differs by one call of [log] at level 1 with the warning (printed when
    the print level, 3 unless given, is at least 1), placed between the read
    of the magic and the read of the four lengths; the result, exception or
    snapshot, and every other event are the same. *)
Theorem appjit_magic_mismatch_only_warns
    fname base kw fs hs evs0 c c' magic :
  0 < page ->
  unpack_Q (pread c 0 8) = Ok magic ->
  magic <> kAppJITMagic ->
  unpack_Q (pread c' 0 8) = Ok kAppJITMagic ->
  drop 8 c' = drop 8 c ->
  let run content :=
    parse_appjit_snapshot Snapshot_parse kAppJITMagic page fname base kw
      {| files := <[fname := content]> fs; handles := hs; events := evs0 |} in
  let warning : Event :=
    EvLog 1 ("WARN: Magic not matching, got 0x" +:+ format_016x magic)
      (1 <=? default 3 (print_level kw)) in
  (run c).1 = (run c').1
  /\ handles (run c).2 = handles (run c').2
  /\ exists rest,
       events (run c').2 = evs0 ++ [EvOpen fname; EvRead 8] ++ EvRead (4 * 8) :: rest
       /\ events (run c).2
          = evs0 ++ [EvOpen fname; EvRead 8; warning] ++ EvRead (4 * 8) :: rest.
Proof.
  intros Hp Hm Hne Hm' Heq run warning.
  pose proof (unpack_Q_length _ _ Hm) as Hlen.
  pose proof (unpack_Q_length _ _ Hm') as Hlen'.
  destruct (oblivious_appjit_after_magic {| content := c'; pos := 8 |} base kw)
    as (r & evs & Hrun').
  assert (Hrun : forall st,
    appjit_after_magic Snapshot_parse page {| content := c; pos := 8 |} base kw st
    = (r, add_events st evs)).
  { intros st. by rewrite (appjit_after_magic_agree c c'), Hrun'. }
  assert (Hhead : exists rest, evs = EvRead (4 * 8) :: rest).
  { specialize (Hrun' {| files := fs; handles := hs; events := [] |}).
    unfold appjit_after_magic, appjit_blobs in Hrun'.
    rewrite !run_bind, f_read_run in Hrun'.
    change (4 * 8 <? -1) with false in Hrun'. cbn iota beta in Hrun'.
    rewrite run_lift in Hrun'.
    destruct (unpack_qqqq _) as [lengths|e].
    - rewrite run_bind in Hrun'.
      match type of Hrun' with
      | context [extract_blobs page ?f [] [] lengths ?s] =>
          destruct (oblivious_extract_blobs lengths f [] []) as (r1 & evs1 & H1);
          rewrite (H1 s) in Hrun'
      end.
      destruct r1 as [[[f1 bl1] offs1]|e1].
      + cbn [ret mret M_ret] in Hrun'.
        destruct (oblivious_appjit_decode lengths bl1 offs1 base kw)
          as (r2 & evs2 & H2).
        unfold mret, M_ret, ret in Hrun'. rewrite H2 in Hrun'.
        injection Hrun' as _ Hev. cbn in Hev. rewrite <- Hev. by eexists.
      + injection Hrun' as _ Hev. cbn in Hev. rewrite <- Hev. by eexists.
    - injection Hrun' as _ Hev. cbn in Hev. rewrite <- Hev. by eexists. }
  destruct Hhead as [rest ->].
  assert (Hc : run c = (r, {| files := <[fname := c]> fs; handles := fname :: hs;
      events := evs0 ++ [EvOpen fname; EvRead 8; warning] ++ EvRead (4 * 8) :: rest |})).
  { unfold run, parse_appjit_snapshot.
    rewrite run_bind. unfold py_open at 1. cbn [files]. rewrite lookup_insert_eq.
    rewrite run_bind, f_read_run. cbn [content pos handles events files].
    change (8 <? -1) with false. cbn iota beta.
    rewrite run_lift, Hm, Hlen.
    destruct (magic =? kAppJITMagic) eqn:E; [lia|].
    rewrite run_log. change (0 + Z.of_nat 8) with 8. rewrite Hrun.
    unfold add_events. cbn [files handles events].
    by rewrite <- !app_assoc. }
  assert (Hc' : run c' = (r, {| files := <[fname := c']> fs; handles := fname :: hs;
      events := evs0 ++ [EvOpen fname; EvRead 8] ++ EvRead (4 * 8) :: rest |})).
  { unfold run, parse_appjit_snapshot.
    rewrite run_bind. unfold py_open at 1. cbn [files]. rewrite lookup_insert_eq.
    rewrite run_bind, f_read_run. cbn [content pos handles events files].
    change (8 <? -1) with false. cbn iota beta.
    rewrite run_lift, Hm', Hlen'.
    rewrite Z.eqb_refl, run_bind. cbn [ret]. change (0 + Z.of_nat 8) with 8.
    rewrite Hrun'. unfold add_events. cbn [files handles events].
    by rewrite <- !app_assoc. }
  rewrite Hc, Hc'. cbn [fst snd handles events].
  split; [done|]. split; [done|]. by exists rest.
Qed.

(** *** File handles *)

Lemma oblivious_handles {A} (m : M A) (st : St) :
  oblivious m -> handles (m st).2 = handles st /\ files (m st).2 = files st.
Proof. intros (r & evs & Hm). by rewrite Hm. Qed.

Lemma oblivious_elf_decode (f : ELF) blobs offsets kw :
  oblivious (elf_decode snap_arch snap_is_64 Snapshot_parse f blobs offsets kw).
Proof. unfold elf_decode. oblivious_tac. Qed.
#[local] Hint Resolve oblivious_elf_decode : oblivious.

(** C9 (amended): neither reader releases the handle it opened.  Each
    opens the file once, when the file exists (and, for the ELF reader, when
    pyelftools is there), and on every exit path, return or exception, that
    handle is still among the open ones; nothing in either reader closes
    it. *)
Theorem readers_leave_handle_open fname base kw (st : St) :
  handles (parse_appjit_snapshot Snapshot_parse kAppJITMagic page fname base kw st).2
  = match files st !! fname with
    | Some _ => fname :: handles st
    | None => handles st
    end
  /\ handles (parse_elf_snapshot snap_arch snap_is_64 Snapshot_parse kAppAOTSymbols
                has_elftools ELFFile fname kw st).2
     = match files st !! fname with
       | Some _ => if has_elftools then fname :: handles st else handles st
       | None => handles st
       end.
Proof.
  split.
  - unfold parse_appjit_snapshot. rewrite run_bind. unfold py_open at 1.
    destruct (files st !! fname) as [c|]; [|done].
    match goal with
    | |- handles (?k ?s).2 = _ =>
        assert (Hobl : oblivious k) by oblivious_tac;
        destruct (oblivious_handles k s Hobl) as [-> _]
    end.
    reflexivity.
  - unfold parse_elf_snapshot. destruct has_elftools; cbn [negb].
    + rewrite run_bind. unfold py_open at 1.
      destruct (files st !! fname) as [c|]; [|done].
      match goal with
      | |- handles (?k ?s).2 = _ =>
          assert (Hobl : oblivious k) by oblivious_tac;
          destruct (oblivious_handles k s Hobl) as [-> _]
      end.
      reflexivity.
    + by destruct (files st !! fname).
Qed.

(** *** The ELF reader *)

Lemma in_section_range s S : in_section s S = true <-> in_range s S.
Proof. unfold in_section, in_range. rewrite andb_true_iff. lia. Qed.

Lemma find_in_section_None s sections :
  (forall S, S ∈ sections -> ~ in_range s S) ->
  List.find (in_section s) sections = None.
Proof.
  induction sections as [|S rest IH]; intros Hnone; [done|].
  cbn. destruct (in_section s S) eqn:E.
  - exfalso. apply (Hnone S); [by left|]. by apply in_section_range.
  - apply IH. intros S' HS'. apply Hnone. by right.
Qed.

(** A name is missing from the index exactly when no symbol table has a
    symbol of that name. *)
Lemma symbol_index_None tables s :
  symbol_index tables !! s = None
  <-> forall sym, sym ∈ concat tables -> name sym <> s.
Proof.
  unfold symbol_index.
  assert (H : forall l (m : gmap string Entry),
    foldl (fun m sym => <[name sym := entry sym]> m) m l !! s = None
    <-> m !! s = None /\ forall sym, sym ∈ l -> name sym <> s).
  { induction l as [|x l IH]; intros m; cbn [foldl].
    - split; [intros Hm; split; [done|]; by intros sym ?%elem_of_nil|by intros [? _]].
    - rewrite IH, lookup_insert_None. split.
      + intros [[Hm Hx] Hl]. split; [done|].
        intros sym [->|Hin]%elem_of_cons; [done|by apply Hl].
      + intros [Hm Hl]. split; [split; [done|]|].
        * apply Hl. by left.
        * intros sym Hin. apply Hl. by right. }
  rewrite H. split; [by intros [_ ?]|]. intros Hl. split; [apply lookup_empty|done].
Qed.

Lemma elf_extract_blob_error sections symbols blobs offsets s e :
  elf_extract_blob sections symbols blobs offsets s = Raise e ->
  extraction_error e.
Proof.
  unfold elf_extract_blob, extraction_error.
  destruct (symbols !! s) as [en|]; [|intros [= <-]; left; by eexists].
  destruct (List.find _ _) as [S|]; [|intros [= <-]; by right; left].
  destruct (_ =? _)%nat; [done|]. intros [= <-]. by right; right.
Qed.

(** The slice of a blob that passes the assertion has the symbol's size, and
    its offset is the symbol's address. *)
Lemma elf_extract_blob_ok sections symbols blobs offsets s bl offs :
  elf_extract_blob sections symbols blobs offsets s = Ok (bl, offs) ->
  exists en S,
    symbols !! s = Some en /\ S ∈ sections /\ in_range en S
    /\ bl = blobs ++ [slice_symbol en S]
    /\ length (slice_symbol en S) = N.to_nat (st_size en)
    /\ offs = offsets ++ [Z.of_N (st_value en)].
Proof.
  unfold elf_extract_blob.
  destruct (symbols !! s) as [en|]; [|done].
  destruct (List.find _ _) as [S|] eqn:Efind; [|done].
  destruct (_ =? _)%nat eqn:Elen; [|done]. intros [= <- <-].
  apply find_some in Efind as [Hin Hsec].
  exists en, S. repeat split; try done.
  - by apply list_elem_of_In.
  - by apply in_section_range.
  - by apply in_section_range.
  - by apply Nat.eqb_eq.
Qed.

Lemma elf_extract_blobs_error sections symbols names : forall blobs offsets e,
  elf_extract_blobs sections symbols blobs offsets names = Raise e ->
  extraction_error e.
Proof.
  induction names as [|s rest IH]; intros blobs offsets e; [done|].
  cbn [elf_extract_blobs].
  destruct (elf_extract_blob _ _ _ _ _) as [[bl offs]|e'] eqn:E.
  - apply IH.
  - intros [= <-]. by eapply elf_extract_blob_error.
Qed.

Lemma elf_extract_blobs_fail sections symbols names s : forall blobs offsets,
  s ∈ names ->
  symbols !! s = None
  \/ (exists en, symbols !! s = Some en
                 /\ forall S, S ∈ sections -> ~ in_range en S) ->
  exists e, elf_extract_blobs sections symbols blobs offsets names = Raise e
            /\ extraction_error e.
Proof.
  induction names as [|s' rest IH]; intros blobs offsets Hin Hbad;
    [by apply elem_of_nil in Hin|].
  cbn [elf_extract_blobs].
  destruct (elf_extract_blob sections symbols blobs offsets s')
    as [[bl offs]|e'] eqn:E.
  - apply elem_of_cons in Hin as [->|Hin]; [|by apply IH].
    exfalso. apply elf_extract_blob_ok in E
      as (en & S & Hen & HS & Hrange & _).
    destruct Hbad as [Hnone|(en' & Hen' & Hno)]; [congruence|].
    assert (en' = en) as -> by congruence. by apply (Hno S).
  - exists e'. split; [done|]. by eapply elf_extract_blob_error.
Qed.

Lemma elf_extract_blobs_length sections symbols names : forall blobs offsets bl offs,
  elf_extract_blobs sections symbols blobs offsets names = Ok (bl, offs) ->
  length bl = (length blobs + length names)%nat
  /\ length offs = (length offsets + length names)%nat.
Proof.
  induction names as [|s rest IH]; intros blobs offsets bl offs.
  - cbn. intros [= <- <-]. lia.
  - cbn [elf_extract_blobs].
    destruct (elf_extract_blob _ _ _ _ _) as [[bl' offs']|e'] eqn:E; [|done].
    intros Hrest. apply IH in Hrest as [-> ->].
    apply elf_extract_blob_ok in E as (en & S & _ & _ & _ & -> & _ & ->).
    rewrite !length_app. cbn. lia.
Qed.

(** Up to the end of the extraction loop. *)
Lemma parse_elf_run fname kw (st : St) c elf :
  has_elftools = true ->
  files st !! fname = Some c ->
  ELFFile c = Ok elf ->
  parse_elf_snapshot snap_arch snap_is_64 Snapshot_parse kAppAOTSymbols
    has_elftools ELFFile fname kw st
  = match elf_blobs kAppAOTSymbols elf with
    | Ok (blobs, offsets) =>
        elf_decode snap_arch snap_is_64 Snapshot_parse elf blobs offsets kw
          (opened fname st)
    | Raise e => (Raise e, opened fname st)
    end.
Proof.
  intros -> Hfile Helf. unfold parse_elf_snapshot. cbn [negb].
  rewrite run_bind. unfold py_open at 1. rewrite Hfile. cbn [content].
  rewrite run_lift, Helf, run_lift.
  by destruct (elf_blobs _ _) as [[blobs offsets]|e].
Qed.

(** The decoding part of the ELF reader on four blobs. *)
Lemma elf_decode_run (f : ELF) (b0 b1 b2 b3 : bytes) o0 o1 o2 o3 kw (st : St) :
  elf_decode snap_arch snap_is_64 Snapshot_parse f [b0; b1; b2; b3]
    [o0; o1; o2; o3] kw st =
  let say n x := EvLog n x (n <=? default 4 (print_level kw)) : Event in
  let vm_line := say 3 ("------- PARSING VM SNAPSHOT --------" +:+ nl) in
  let iso_line := say 3 (nl +:+ "------- PARSING ISOLATE SNAPSHOT --------" +:+ nl) in
  match Snapshot_parse (vm_call b0 o0 b1 o1 kw) with
  | Ok base =>
      let calls := [vm_line; EvDecode (vm_call b0 o0 b1 o1 kw); iso_line;
                    EvDecode (isolate_call b2 o2 b3 o3 (Some base) kw)] in
      match Snapshot_parse (isolate_call b2 o2 b3 o3 (Some base) kw) with
      | Ok res =>
          (Ok res,
           add_events st
             (calls ++ arch_events (arch_mismatch snap_arch snap_is_64 f res) f kw))
      | Raise e => (Raise e, add_events st calls)
      end
  | Raise e =>
      (Raise e, add_events st [vm_line; EvDecode (vm_call b0 o0 b1 o1 kw)])
  end.
Proof.
  unfold elf_decode, py_index, log, decode, vm_call, isolate_call, add_events,
    arch_events.
  unfold mbind, M_bind, bind, ret, raise, emit, lift.
  cbn -[Z.leb String.append nl arch_mismatch].
  destruct (Snapshot_parse _) as [base|e]; cbn -[Z.leb String.append nl arch_mismatch];
    [|by rewrite <- ?app_assoc].
  destruct (Snapshot_parse _) as [res|e]; cbn -[Z.leb String.append nl arch_mismatch];
    [|by rewrite <- ?app_assoc].
  destruct (arch_mismatch _ _ _ _); cbn -[Z.leb String.append nl];
    by rewrite <- ?app_assoc.
Qed.

(** C5: when the four blobs come out of an ELF container and the decoder
    produces a base snapshot for the VM pair, the ELF reader calls the
    decoder exactly twice: on blobs 0 and 1 with their offsets, as the VM
    snapshot and without a base, then on blobs 2 and 3 with their offsets,
    as the isolate snapshot with that base; what the second call gives is
    what the reader gives. *)
Theorem elf_decodes_base_then_isolate
    fname kw (st : St) c elf blobs offsets :
  has_elftools = true ->
  files st !! fname = Some c ->
  ELFFile c = Ok elf ->
  length kAppAOTSymbols = 4%nat ->
  elf_blobs kAppAOTSymbols elf = Ok (blobs, offsets) ->
  let r := parse_elf_snapshot snap_arch snap_is_64 Snapshot_parse kAppAOTSymbols
             has_elftools ELFFile fname kw st in
  exists b0 b1 b2 b3 o0 o1 o2 o3,
    blobs = [b0; b1; b2; b3] /\ offsets = [o0; o1; o2; o3]
    /\ forall base,
         Snapshot_parse (vm_call b0 o0 b1 o1 kw) = Ok base ->
         exists evs,
           r.2 = add_events (opened fname st) evs
           /\ decodes evs = [vm_call b0 o0 b1 o1 kw;
                             isolate_call b2 o2 b3 o3 (Some base) kw]
           /\ r.1 = Snapshot_parse (isolate_call b2 o2 b3 o3 (Some base) kw).
Proof.
  intros Hlib Hfile Helf Hfour Hblobs r.
  pose proof Hblobs as Hlen. unfold elf_blobs in Hlen.
  apply elf_extract_blobs_length in Hlen as [Hbl Hoffs].
  rewrite Hfour in Hbl, Hoffs. cbn in Hbl, Hoffs.
  destruct blobs as [|b0 [|b1 [|b2 [|b3 [|]]]]]; try done.
  destruct offsets as [|o0 [|o1 [|o2 [|o3 [|]]]]]; try done.
  exists b0, b1, b2, b3, o0, o1, o2, o3. split; [done|]. split; [done|].
  intros base Hbase. unfold r.
  rewrite (parse_elf_run fname kw st c elf Hlib Hfile Helf), Hblobs.
  rewrite elf_decode_run. cbn zeta. rewrite Hbase.
  destruct (Snapshot_parse (isolate_call _ _ _ _ _ _)) as [res|e]; cbn [fst snd].
  - eexists. split; [reflexivity|]. split; [|done].
    rewrite decodes_app. unfold arch_events.
    destruct (arch_mismatch _ _ _ _); by cbn.
  - eexists. split; [reflexivity|]. by split.
Qed.

(** C6: the ELF reader fails, without ever calling the decoder, when one of
    the required symbol names is missing from the index built from all the
    symbol tables, or when the address of a resolved symbol is in no
    section's range [[sh_addr, sh_addr + data_size)]: it raises [KeyError]
    or [StopIteration] (or the [AssertionError] of an earlier symbol whose
    slice is short), and the only event is the opening of the file. *)
Theorem elf_unresolved_symbol_is_fatal fname kw (st : St) c elf s :
  has_elftools = true ->
  files st !! fname = Some c ->
  ELFFile c = Ok elf ->
  s ∈ kAppAOTSymbols ->
  (symbol_index (omap symtab (elf_sections elf)) !! s = None
   \/ exists en,
        symbol_index (omap symtab (elf_sections elf)) !! s = Some en
        /\ forall S, S ∈ elf_sections elf -> ~ in_range en S) ->
  let r := parse_elf_snapshot snap_arch snap_is_64 Snapshot_parse kAppAOTSymbols
             has_elftools ELFFile fname kw st in
  exists e,
    r.1 = Raise e /\ extraction_error e
    /\ r.2 = opened fname st
    /\ decodes (events r.2) = decodes (events st).
Proof.
  intros Hlib Hfile Helf Hin Hbad r. unfold r.
  rewrite (parse_elf_run fname kw st c elf Hlib Hfile Helf).
  destruct (elf_extract_blobs_fail (elf_sections elf)
              (symbol_index (omap symtab (elf_sections elf)))
              kAppAOTSymbols s [] [] Hin Hbad) as (e & He & Herr).
  unfold elf_blobs. rewrite He. exists e. cbn [fst snd].
  repeat split; try done.
  unfold opened. cbn [events]. rewrite decodes_app. cbn. by rewrite app_nil_r.
Qed.

(** *** The architecture check *)

Lemma split_dash_head_prefix s : String.prefix (split_dash_head s) s = true.
Proof.
  induction s as [|ch rest IH]; [done|]. cbn [split_dash_head].
  destruct (Ascii.eqb ch "-"); [done|]. cbn [String.prefix].
  by destruct (ascii_dec ch ch).
Qed.

Lemma arch_mismatch_iff (f : ELF) (res : SnapT) :
  arch_mismatch snap_arch snap_is_64 f res = true
  <-> archs !! e_machine f <> Some (split_dash_head (snap_arch res))
      \/ (elfclass_int f =? 64) <> snap_is_64 res.
Proof.
  unfold arch_mismatch. rewrite orb_true_iff, !negb_true_iff.
  rewrite bool_decide_eq_false, eqb_false_iff. reflexivity.
Qed.

(** C8: after the isolate decode the ELF reader maps the machine type
    through the table EM_386 to ia32, EM_X86_64 to x64, EM_ARM to arm,
    EM_AARCH64 to arm64, compares the tag with the part of the snapshot's
    architecture before the first dash, and compares the class (64 or not)
    with the snapshot's [is_64].  A mismatch of either (for one, an
    EM_X86_64 file whose snapshot architecture does not begin with x64)
    only adds one call of [log] at level 1 with the warning, printed when
    the print level, 4 unless given, is at least 1: no exception is raised
    and the decoded isolate snapshot is returned all the same. *)
Theorem elf_arch_mismatch_only_warns
    fname kw (st : St) c elf b0 b1 b2 b3 o0 o1 o2 o3 base res :
  has_elftools = true ->
  files st !! fname = Some c ->
  ELFFile c = Ok elf ->
  elf_blobs kAppAOTSymbols elf = Ok ([b0; b1; b2; b3], [o0; o1; o2; o3]) ->
  Snapshot_parse (vm_call b0 o0 b1 o1 kw) = Ok base ->
  Snapshot_parse (isolate_call b2 o2 b3 o3 (Some base) kw) = Ok res ->
  let r := parse_elf_snapshot snap_arch snap_is_64 Snapshot_parse kAppAOTSymbols
             has_elftools ELFFile fname kw st in
  let mismatch := arch_mismatch snap_arch snap_is_64 elf res in
  let warning : Event :=
    EvLog 1 ("WARN: ELF arch (" +:+ e_machine elf +:+ ") and/or class ("
             +:+ elfclass_str elf +:+ ") not matching snapshot")
      (1 <=? default 4 (print_level kw)) in
  (archs !! "EM_386" = Some "ia32" /\ archs !! "EM_X86_64" = Some "x64"
   /\ archs !! "EM_ARM" = Some "arm" /\ archs !! "EM_AARCH64" = Some "arm64")
  /\ (mismatch = true
      <-> archs !! e_machine elf <> Some (split_dash_head (snap_arch res))
          \/ (elfclass_int elf =? 64) <> snap_is_64 res)
  /\ (e_machine elf = "EM_X86_64" ->
      String.prefix "x64" (snap_arch res) = false -> mismatch = true)
  /\ r.1 = Ok res
  /\ exists evs,
       r.2 = add_events (opened fname st)
               (evs ++ EvDecode (isolate_call b2 o2 b3 o3 (Some base) kw)
                    :: (if mismatch then [warning] else [])).
Proof.
  intros Hlib Hfile Helf Hblobs Hbase Hres r mismatch warning.
  split; [by vm_compute|]. split; [apply arch_mismatch_iff|]. split.
  - intros Hm Hpre. apply arch_mismatch_iff. left. rewrite Hm.
    change (archs !! "EM_X86_64") with (Some "x64" : option string).
    intros [= Heq]. pose proof (split_dash_head_prefix (snap_arch res)) as Hp.
    rewrite <- Heq in Hp. congruence.
  - unfold r. rewrite (parse_elf_run fname kw st c elf Hlib Hfile Helf), Hblobs.
    rewrite elf_decode_run. cbn zeta. rewrite Hbase, Hres. cbn [fst snd].
    split; [done|]. eexists [_; _; _]. unfold arch_events. fold mismatch.
    by destruct mismatch.
Qed.

(** *** Further properties of the raw reader: the header *)

(** What [read] returns for a non-negative size: that many bytes from the
    position, fewer when the file ends first. *)
Lemma pread_slice c p size :
  0 <= size -> pread c p size = take (Z.to_nat size) (drop (Z.to_nat p) c).
Proof. intros Hs. unfold pread. destruct (size <? 0) eqn:E; [lia|done]. Qed.

Lemma pread_length c p size :
  0 <= p -> 0 <= size ->
  Z.of_nat (length (pread c p size))
  = Z.max 0 (Z.min size (Z.of_nat (length c) - p)).
Proof.
  intros Hp Hs. rewrite pread_slice by done.
  rewrite length_take, length_drop. lia.
Qed.




(** X1: a file shorter than the 40-byte header makes the raw reader raise
    [struct.error] before it seeks anywhere or calls the decoder: with fewer
    than 8 bytes right after the read of the magic, otherwise after the
    magic check (whose warning, if any, has then been logged) and the read
    of the lengths. *)
Theorem appjit_short_header_is_struct_error fname base kw (st : St) c :
  files st !! fname = Some c ->
  (length c < 40)%nat ->
  parse_appjit_snapshot Snapshot_parse kAppJITMagic page fname base kw st
  = (Raise StructError,
     add_events (opened fname st)
       (if (length c <? 8)%nat then [EvRead 8]
        else EvRead 8 :: magic_events kAppJITMagic (le_unsigned (take 8 c)) kw
             ++ [EvRead (4 * 8)])).
Proof.
  intros Hfile Hshort. unfold parse_appjit_snapshot.
  rewrite run_bind. unfold py_open at 1. rewrite Hfile.
  rewrite run_bind, f_read_run. cbn [content pos].
  change (8 <? -1) with false. cbn iota beta.
  assert (Hmagic : pread c 0 8 = take 8 c) by (by rewrite pread_slice).
  rewrite Hmagic, run_lift. unfold unpack_Q. rewrite length_take.
  destruct (length c <? 8)%nat eqn:E.
  - apply Nat.ltb_lt in E.
    destruct (8 `min` length c =? 8)%nat eqn:E8; [apply Nat.eqb_eq in E8; lia|].
    reflexivity.
  - apply Nat.ltb_ge in E.
    replace (8 `min` length c)%nat with 8%nat by lia. cbn [Nat.eqb].
    assert (Hrest : forall (s : St),
      appjit_after_magic Snapshot_parse page
        {| content := c; pos := 0 + Z.of_nat 8 |} base kw s
      = (Raise StructError, add_events s [EvRead (4 * 8)])).
    { intros s. unfold appjit_after_magic, appjit_blobs.
      rewrite !run_bind, f_read_run. cbn [content pos].
      change (4 * 8 <? -1) with false. cbn iota beta.
      rewrite run_lift. unfold unpack_qqqq.
      pose proof (pread_length c (0 + Z.of_nat 8) (4 * 8) ltac:(lia) ltac:(lia)) as H.
      destruct (length (pread c (0 + Z.of_nat 8) (4 * 8)) =? 32)%nat eqn:E32;
        [apply Nat.eqb_eq in E32; lia|].
      reflexivity. }
    unfold magic_events. destruct (le_unsigned (take 8 c) =? kAppJITMagic).
    + rewrite run_bind. cbn [ret]. rewrite Hrest, add_events_app. reflexivity.
    + rewrite run_log, Hrest, !add_events_app. reflexivity.
Qed.

(** *** Further properties of the raw reader: the blobs *)

Lemma spec_align_lt tell : 0 < page -> spec_align page tell < tell + page.
Proof.
  intros Hp. rewrite spec_align_eq by done.
  pose proof (Z.div_mod (- tell) page ltac:(lia)) as Hd.
  pose proof (Z.mod_pos_bound (- tell) page Hp) as Hm. nia.
Qed.

Lemma spec_layout_length lengths : forall c p,
  length (spec_layout page c p lengths) = length lengths.
Proof. induction lengths as [|l rest IH]; intros c p; cbn; [done|]. by rewrite IH. Qed.

(** Every entry of the layout is the declared length, an offset that is not
    before the starting position, and what [read] gives there. *)
Lemma spec_layout_lookup lengths : forall c p i a l b,
  0 < page -> 0 <= p ->
  spec_layout page c p lengths !! i = Some (a, l, b) ->
  lengths !! i = Some l /\ p <= a /\ b = pread c a l.
Proof.
  induction lengths as [|l0 rest IH]; intros c p i a l b Hp Hpos Hi; [done|].
  cbn [spec_layout] in Hi. cbn zeta in Hi.
  destruct (spec_align_least p Hp) as (_ & Hle & _).
  destruct i as [|i].
  - cbn in Hi. injection Hi as <- <- <-. by cbn.
  - cbn in Hi. apply IH in Hi as (Hl & Hle' & Hb); [|done|lia].
    cbn. repeat split; [done| |done]. lia.
Qed.

Lemma spec_layout_gap lengths : forall c p i x y,
  0 < page ->
  spec_layout page c p lengths !! i = Some x ->
  spec_layout page c p lengths !! S i = Some y ->
  x.1.1 + Z.of_nat (length x.2) <= y.1.1
  /\ y.1.1 < x.1.1 + Z.of_nat (length x.2) + page.
Proof.
  induction lengths as [|l rest IH]; intros c p i x y Hp Hx Hy; [done|].
  cbn [spec_layout] in Hx, Hy. cbn zeta in Hx, Hy.
  destruct i as [|i]; [|by eapply IH].
  cbn in Hx. injection Hx as <-. cbn [fst snd].
  destruct rest as [|l' rest']; [done|].
  cbn in Hy. injection Hy as <-. cbn [fst snd].
  set (e := spec_align page p + Z.of_nat (length (pread c (spec_align page p) l))).
  destruct (spec_align_least e Hp) as (_ & Hle & _).
  pose proof (spec_align_lt e Hp). lia.
Qed.

(** X3: every blob the raw reader extracts is the slice of the file that
    starts at the blob's recorded offset: for a declared length [l >= 0] the
    first [l] bytes from there, cut short where the file ends (so never more
    than [l] bytes, and [l] bytes exactly when the file reaches
    [offset + l]); for a declared length of -1 everything from the offset to
    the end of the file. *)
Theorem appjit_blobs_are_file_slices
    (f : BinFile) (st : St) lengths blobs offsets st' :
  0 < page -> 0 <= pos f ->
  appjit_blobs page f st = (Ok (lengths, blobs, offsets), st') ->
  length lengths = 4%nat /\ length blobs = 4%nat /\ length offsets = 4%nat
  /\ forall i l a b,
       lengths !! i = Some l -> offsets !! i = Some a -> blobs !! i = Some b ->
       0 <= a
       /\ (0 <= l ->
           b = take (Z.to_nat l) (drop (Z.to_nat a) (content f))
           /\ Z.of_nat (length b)
              = Z.max 0 (Z.min l (Z.of_nat (length (content f)) - a)))
       /\ (l = -1 -> b = drop (Z.to_nat a) (content f)).
Proof.
  intros Hp Hpos Hrun.
  destruct (appjit_blobs_inv _ _ _ _ _ _ Hp Hpos Hrun)
    as (p & Hp0 & Hunpack & _ & -> & -> & _).
  apply unpack_qqqq_length in Hunpack as [Hlen32 Hfour].
  rewrite !length_fmap, spec_layout_length.
  do 3 (split; [done|]).
  intros i l a b Hl Ha Hb.
  rewrite list_lookup_fmap in Ha. rewrite list_lookup_fmap in Hb.
  destruct (spec_layout page (content f) p lengths !! i) as [[[a' l'] b']|] eqn:E;
    [|done].
  cbn in Ha, Hb. injection Ha as <-. injection Hb as <-.
  apply spec_layout_lookup in E as (Hl' & Hle & ->); [|done|done].
  assert (l' = l) as -> by congruence.
  split; [lia|]. split.
  - intros Hl0. split; [by apply pread_slice|apply pread_length; lia].
  - intros ->. reflexivity.
Qed.

(** X4: the blobs of the raw reader do not overlap and the padding the
    reader skips before a blob is shorter than a page: each offset after the
    first is at or after the end of the bytes read for the blob before it,
    and less than one page past that end. *)
Theorem appjit_blobs_do_not_overlap
    (f : BinFile) (st : St) lengths blobs offsets st' :
  0 < page -> 0 <= pos f ->
  appjit_blobs page f st = (Ok (lengths, blobs, offsets), st') ->
  forall i a a' b,
    offsets !! i = Some a -> offsets !! S i = Some a' -> blobs !! i = Some b ->
    a + Z.of_nat (length b) <= a' < a + Z.of_nat (length b) + page.
Proof.
  intros Hp Hpos Hrun.
  destruct (appjit_blobs_inv _ _ _ _ _ _ Hp Hpos Hrun)
    as (p & Hp0 & _ & _ & -> & -> & _).
  intros i a a' b Ha Ha' Hb.
  rewrite list_lookup_fmap in Ha. rewrite list_lookup_fmap in Ha'.
  rewrite list_lookup_fmap in Hb.
  destruct (spec_layout page (content f) p lengths !! i) as [x|] eqn:Ex; [|done].
  destruct (spec_layout page (content f) p lengths !! S i) as [y|] eqn:Ey; [|done].
  cbn in Ha, Ha', Hb. injection Ha as <-. injection Ha' as <-. injection Hb as <-.
  by eapply spec_layout_gap.
Qed.

(** *** Further properties: the base snapshot and decoder failures *)

(** X5: when the container carries vm-data of its own (the first blob read
    is not empty), a base snapshot passed by the caller is dropped without a
    word: the run, result and events, is the same whatever base is
    passed. *)
Theorem appjit_own_vm_data_overrides_base
    fname base1 base2 kw (st : St) c magic l0 l1 l2 l3 :
  0 < page ->
  files st !! fname = Some c ->
  appjit_header c = Ok (magic, [l0; l1; l2; l3]) ->
  Forall readable_size [l0; l1; l2; l3] ->
  pread c (spec_align page 40) l0 <> [] ->
  parse_appjit_snapshot Snapshot_parse kAppJITMagic page fname base1 kw st
  = parse_appjit_snapshot Snapshot_parse kAppJITMagic page fname base2 kw st.
Proof.
  intros Hp Hfile Hhdr Hall Hb0.
  rewrite !(parse_appjit_run fname _ kw st c magic _ Hp Hfile Hhdr Hall).
  cbn zeta. cbn [spec_layout fmap list_fmap fst snd].
  rewrite !appjit_decode_run. cbn zeta.
  by destruct (pread c (spec_align page 40) l0).
Qed.


(** X7: in the ELF reader a decoder failure is the reader's failure.  If the
    VM pair fails to decode, the isolate pair is never decoded; if the
    isolate pair fails, the architecture check is never reached, so no
    warning is logged. *)
Theorem elf_decoder_failure_propagates
    fname kw (st : St) c elf b0 b1 b2 b3 o0 o1 o2 o3 :
  has_elftools = true ->
  files st !! fname = Some c ->
  ELFFile c = Ok elf ->
  elf_blobs kAppAOTSymbols elf = Ok ([b0; b1; b2; b3], [o0; o1; o2; o3]) ->
  let r := parse_elf_snapshot snap_arch snap_is_64 Snapshot_parse kAppAOTSymbols
             has_elftools ELFFile fname kw st in
  exists evs,
    r.2 = add_events (opened fname st) evs
    /\ (forall e,
          Snapshot_parse (vm_call b0 o0 b1 o1 kw) = Raise e ->
          r.1 = Raise e /\ decodes evs = [vm_call b0 o0 b1 o1 kw])
    /\ (forall base e,
          Snapshot_parse (vm_call b0 o0 b1 o1 kw) = Ok base ->
          Snapshot_parse (isolate_call b2 o2 b3 o3 (Some base) kw) = Raise e ->
          r.1 = Raise e
          /\ decodes evs = [vm_call b0 o0 b1 o1 kw;
                            isolate_call b2 o2 b3 o3 (Some base) kw]
          /\ forall x p, EvLog 1 x p ∉ evs).
Proof.
  intros Hlib Hfile Helf Hblobs r. unfold r.
  rewrite (parse_elf_run fname kw st c elf Hlib Hfile Helf), Hblobs.
  rewrite elf_decode_run. cbn zeta.
  destruct (Snapshot_parse (vm_call b0 o0 b1 o1 kw)) as [base|e0] eqn:Evm.
  - destruct (Snapshot_parse (isolate_call b2 o2 b3 o3 (Some base) kw))
      as [res|e1] eqn:Eiso; cbn [fst snd]; eexists; (split; [reflexivity|]);
      (split; [by intros e [=]|]); intros base' e [= <-] He;
      rewrite Eiso in He; [done|].
    injection He as <-. split; [done|]. split; [done|].
    intros x p Hin.
    repeat (apply elem_of_cons in Hin as [Hin|Hin]; [done|]).
    by apply elem_of_nil in Hin.
  - cbn [fst snd]. eexists. split; [reflexivity|]. split.
    + by intros e [= <-].
    + by intros base e [=].
Qed.

(** *** Further properties of the ELF reader: symbols and sections *)

Lemma find_first {A} (f : A -> bool) (l : list A) x :
  List.find f l = Some x ->
  exists before after,
    l = before ++ x :: after /\ f x = true
    /\ forall y, y ∈ before -> f y = false.
Proof.
  induction l as [|y l IH]; [done|]. cbn. destruct (f y) eqn:E.
  - intros [= ->]. exists [], l. repeat split; [done|].
    by intros z ?%elem_of_nil.
  - intros Hfind. destruct (IH Hfind) as (before & after & -> & Hx & Hbefore).
    exists (y :: before), after. repeat split; [done|].
    intros z [->|Hz]%elem_of_cons; [done|by apply Hbefore].
Qed.

Lemma slice_symbol_length en S :
  Z.of_nat (length (slice_symbol en S))
  = Z.max 0 (Z.min (Z.of_N (st_size en))
               (Z.of_nat (length (sec_data S))
                - Z.max 0 (Z.of_N (st_value en) - Z.of_N (sh_addr S)))).
Proof. unfold slice_symbol. rewrite length_take, length_drop. lia. Qed.

(** X9: among several symbols of the same name, in one table or across
    tables, the one the ELF reader resolves is the last in file order; and a
    name resolves to nothing exactly when no table has a symbol of that
    name. *)
Theorem symbol_index_last_wins tables s :
  (symbol_index tables !! s = None
   <-> forall sym, sym ∈ concat tables -> name sym <> s)
  /\ forall before sym after,
       concat tables = before ++ sym :: after ->
       name sym = s ->
       (forall x, x ∈ after -> name x <> s) ->
       symbol_index tables !! s = Some (entry sym).
Proof.
  split; [apply symbol_index_None|].
  intros before sym after Hcat Hname Hafter. unfold symbol_index. rewrite Hcat.
  rewrite foldl_app. cbn [foldl]. subst s.
  match goal with
  | |- context [foldl ?g ∅ before] => generalize (foldl g ∅ before)
  end. intros m.
  assert (H : forall l (m' : gmap string Entry) e,
    m' !! name sym = Some e -> (forall x, x ∈ l -> name x <> name sym) ->
    foldl (fun m x => <[name x := entry x]> m) m' l !! name sym = Some e).
  { induction l as [|x l IH]; intros m' e Hm' Hl; [done|]. cbn [foldl].
    apply IH.
    - rewrite lookup_insert_ne; [done|]. apply Hl. by left.
    - intros y Hy. apply Hl. by right. }
  apply H; [apply lookup_insert_eq|done].
Qed.

Lemma elf_extract_blobs_app sections symbols pre : forall rest blobs offsets,
  elf_extract_blobs sections symbols blobs offsets (pre ++ rest)
  = match elf_extract_blobs sections symbols blobs offsets pre with
    | Ok (bl, offs) => elf_extract_blobs sections symbols bl offs rest
    | Raise e => Raise e
    end.
Proof.
  induction pre as [|s pre IH]; intros rest blobs offsets; [done|].
  cbn [app elf_extract_blobs].
  destruct (elf_extract_blob _ _ _ _ _) as [[bl offs]|e]; [apply IH|done].
Qed.

Lemma elf_extract_blobs_extends sections symbols names :
  forall (b1 : list bytes) (o1 : list Z) b2 o2,
  elf_extract_blobs sections symbols b1 o1 names = Ok (b2, o2) ->
  exists sb so, b2 = b1 ++ sb /\ o2 = o1 ++ so.
Proof.
  induction names as [|s rest IH]; intros b1 o1 b2 o2 H.
  - cbn in H. injection H as <- <-. exists [], []. by rewrite !app_nil_r.
  - cbn [elf_extract_blobs] in H.
    destruct (elf_extract_blob sections symbols b1 o1 s) as [[b3 o3]|e1] eqn:E1;
      [|done].
    apply elf_extract_blob_ok in E1 as (? & ? & _ & _ & _ & -> & _ & ->).
    apply IH in H as (sb & so & -> & ->).
    eexists _, _. by rewrite <- !app_assoc.
Qed.

Lemma elf_extract_blobs_lookup sections symbols names :
  forall blobs offsets bl offs,
  elf_extract_blobs sections symbols blobs offsets names = Ok (bl, offs) ->
  length blobs = length offsets ->
  forall i s,
    names !! i = Some s ->
    exists en S,
      symbols !! s = Some en
      /\ List.find (in_section en) sections = Some S
      /\ bl !! (length blobs + i)%nat = Some (slice_symbol en S)
      /\ length (slice_symbol en S) = N.to_nat (st_size en)
      /\ offs !! (length blobs + i)%nat = Some (Z.of_N (st_value en)).
Proof.
  induction names as [|s0 rest IH]; intros blobs offsets bl offs Hrun Hlen i s Hi;
    [done|].
  cbn [elf_extract_blobs] in Hrun.
  destruct (elf_extract_blob sections symbols blobs offsets s0)
    as [[bl0 offs0]|e] eqn:E; [|done].
  pose proof E as E'. unfold elf_extract_blob in E'.
  destruct (symbols !! s0) as [en|] eqn:Een; [|done].
  destruct (List.find (in_section en) sections) as [S|] eqn:Efind; [|done].
  destruct (length (slice_symbol en S) =? N.to_nat (st_size en))%nat eqn:Esz;
    [|done].
  injection E' as <- <-. apply Nat.eqb_eq in Esz.
  destruct i as [|i].
  - cbn in Hi. injection Hi as <-. exists en, S.
    destruct (elf_extract_blobs_extends _ _ _ _ _ _ _ Hrun) as (sb & so & -> & ->).
    rewrite Nat.add_0_r, <- !app_assoc. cbn [app].
    repeat split; try done.
    + by apply list_lookup_middle.
    + by apply list_lookup_middle.
  - cbn in Hi.
    destruct (IH _ _ _ _ Hrun ltac:(by rewrite !length_app, Hlen) i s Hi)
      as (en' & S' & H1 & H2 & H3 & H4 & H5).
    exists en', S'. rewrite length_app in H3, H5. cbn in H3, H5.
    replace (length blobs + Datatypes.S i)%nat
      with (length blobs + 1 + i)%nat by lia.
    by repeat split.
Qed.

(** X8: when the extraction loop of the ELF reader succeeds there is one
    blob and one offset per required name, in order.  The offset is the
    symbol's [st_value], a virtual address, whatever the section's place in
    the file; the blob is taken from the first section in file order whose
    range holds that address, starts [st_value - sh_addr] bytes into the
    section's data and has exactly [st_size] bytes. *)
Theorem elf_blobs_are_symbol_slices elf blobs offsets :
  elf_blobs kAppAOTSymbols elf = Ok (blobs, offsets) ->
  length blobs = length kAppAOTSymbols
  /\ length offsets = length kAppAOTSymbols
  /\ forall i s,
       kAppAOTSymbols !! i = Some s ->
       exists en S before after,
         symbol_index (omap symtab (elf_sections elf)) !! s = Some en
         /\ elf_sections elf = before ++ S :: after
         /\ in_range en S
         /\ (forall S', S' ∈ before -> ~ in_range en S')
         /\ offsets !! i = Some (Z.of_N (st_value en))
         /\ blobs !! i
            = Some (take (N.to_nat (st_size en))
                      (drop (N.to_nat (st_value en - sh_addr S)) (sec_data S)))
         /\ length (take (N.to_nat (st_size en))
                      (drop (N.to_nat (st_value en - sh_addr S)) (sec_data S)))
            = N.to_nat (st_size en).
Proof.
  unfold elf_blobs. intros Hrun.
  pose proof (elf_extract_blobs_length _ _ _ _ _ _ _ Hrun) as [Hbl Hoffs].
  split; [done|]. split; [done|]. intros i s Hi.
  destruct (elf_extract_blobs_lookup _ _ _ _ _ _ _ Hrun eq_refl i s Hi)
    as (en & S & Hen & Hfind & Hb & Hsz & Ho).
  apply find_first in Hfind as (before & after & Hsec & HS & Hbefore).
  apply in_section_range in HS.
  assert (Hoff : Z.to_nat (Z.of_N (st_value en) - Z.of_N (sh_addr S))
                 = N.to_nat (st_value en - sh_addr S)).
  { unfold in_range in HS. lia. }
  unfold slice_symbol in Hb, Hsz. rewrite Hoff in Hb, Hsz.
  exists en, S, before, after.
  split; [done|]. split; [done|]. split; [done|]. split; [|by repeat split].
  intros S' HS' Hr. apply in_section_range in Hr.
  by rewrite (Hbefore S' HS') in Hr.
Qed.

Lemma find_first_intro {A} (f : A -> bool) before x after :
  f x = true -> (forall y, y ∈ before -> f y = false) ->
  List.find f (before ++ x :: after) = Some x.
Proof.
  intros Hx. induction before as [|y before IH]; intros Hbefore; cbn.
  - by rewrite Hx.
  - rewrite (Hbefore y) by (by left). apply IH.
    intros z Hz. apply Hbefore. by right.
Qed.

(** X10: the exception of the ELF reader's extraction loop is decided by the
    first required name, in order, that does not come through: [KeyError]
    with that name when no symbol table has it, [StopIteration] when its
    address is in no section's range, [AssertionError] when its size is
    not zero and the first section that holds the address has fewer bytes
    of data after the symbol's start than that size.  In each case the file
    has been opened and nothing else has happened. *)
Theorem elf_first_failing_name_decides
    fname kw (st : St) c elf pre s post bl offs :
  has_elftools = true ->
  files st !! fname = Some c ->
  ELFFile c = Ok elf ->
  kAppAOTSymbols = pre ++ s :: post ->
  elf_extract_blobs (elf_sections elf)
    (symbol_index (omap symtab (elf_sections elf))) [] [] pre = Ok (bl, offs) ->
  let r := parse_elf_snapshot snap_arch snap_is_64 Snapshot_parse kAppAOTSymbols
             has_elftools ELFFile fname kw st in
  (symbol_index (omap symtab (elf_sections elf)) !! s = None ->
   r = (Raise (KeyError s), opened fname st))
  /\ (forall en,
        symbol_index (omap symtab (elf_sections elf)) !! s = Some en ->
        (forall S, S ∈ elf_sections elf -> ~ in_range en S) ->
        r = (Raise StopIteration, opened fname st))
  /\ (forall en S before after,
        symbol_index (omap symtab (elf_sections elf)) !! s = Some en ->
        elf_sections elf = before ++ S :: after ->
        in_range en S ->
        (forall S', S' ∈ before -> ~ in_range en S') ->
        (0 < st_size en)%N ->
        Z.of_nat (length (sec_data S))
        < Z.of_N (st_value en) - Z.of_N (sh_addr S) + Z.of_N (st_size en) ->
        r = (Raise AssertionError, opened fname st)).
Proof.
  intros Hlib Hfile Helf Hnames Hpre r.
  assert (Hr : r = match elf_extract_blob (elf_sections elf)
                           (symbol_index (omap symtab (elf_sections elf)))
                           bl offs s with
                   | Ok (bl', offs') =>
                       match elf_extract_blobs (elf_sections elf)
                               (symbol_index (omap symtab (elf_sections elf)))
                               bl' offs' post with
                       | Ok (blobs, offsets) =>
                           elf_decode snap_arch snap_is_64 Snapshot_parse elf
                             blobs offsets kw (opened fname st)
                       | Raise e => (Raise e, opened fname st)
                       end
                   | Raise e => (Raise e, opened fname st)
                   end).
  { unfold r. rewrite (parse_elf_run fname kw st c elf Hlib Hfile Helf).
    unfold elf_blobs. rewrite Hnames, elf_extract_blobs_app, Hpre.
    cbn [elf_extract_blobs].
    by destruct (elf_extract_blob _ _ bl offs s) as [[bl' offs']|e]. }
  rewrite Hr. unfold elf_extract_blob. split; [|split].
  - by intros ->.
  - intros en -> Hnone. by rewrite find_in_section_None.
  - intros en S before after -> Hsec HS Hbefore Hsize Hshort.
    rewrite Hsec, find_first_intro.
    + pose proof (slice_symbol_length en S) as Hlen.
      destruct (length (slice_symbol en S) =? N.to_nat (st_size en))%nat eqn:E;
        [|done].
      apply Nat.eqb_eq in E. unfold in_range in HS. lia.
    + by apply in_section_range.
    + intros S' HS'. specialize (Hbefore S' HS').
      destruct (in_section en S') eqn:E; [|done].
      by apply in_section_range in E.
Qed.

(** *** Further properties: what the readers print *)

Create HintDb appends.

Lemma appends_ret {A} P (a : A) : appends (SnapT:=SnapT) P (ret a).
Proof. exists (Ok a), []. split; [|done]. intros st. by rewrite add_events_nil. Qed.

Lemma appends_raise {A} P e : appends (SnapT:=SnapT) (A:=A) P (raise e).
Proof. exists (Raise e), []. split; [|done]. intros st. by rewrite add_events_nil. Qed.

Lemma appends_lift {A} P (r : Res A) : appends (SnapT:=SnapT) P (lift r).
Proof. exists r, []. split; [|done]. intros st. by rewrite add_events_nil. Qed.

Lemma appends_emit (P : Event -> Prop) (ev : Event) : P ev -> appends P (emit ev).
Proof. intros Hev. exists (Ok tt), [ev]. split; [done|]. by constructor. Qed.

Lemma appends_bind {A B} P (m : M A) (k : A -> M B) :
  appends (SnapT:=SnapT) P m -> (forall a, appends P (k a)) -> appends P (m ≫= k).
Proof.
  intros (r & evs & Hm & Hevs) Hk. destruct r as [a|e].
  - destruct (Hk a) as (r' & evs' & Hka & Hevs'). exists r', (evs ++ evs').
    split; [|by apply Forall_app].
    intros st. by rewrite run_bind, Hm, Hka, add_events_app.
  - exists (Raise e), evs. split; [|done]. intros st. by rewrite run_bind, Hm.
Qed.

Lemma appends_log dflt kw n x :
  n = 1 \/ n = 3 -> appends (SnapT:=SnapT) (reader_log dflt kw) (log dflt kw n x).
Proof. intros Hn. unfold log. by apply appends_emit. Qed.
#[local] Hint Resolve appends_log : appends.

Ltac appends_step :=
  first
    [ apply appends_ret | apply appends_raise | apply appends_lift
    | apply appends_emit; exact I
    | solve [auto with appends]
    | apply appends_bind; [|intros ?]
    | match goal with
      | |- appends _ (match ?x with _ => _ end) => destruct x
      | |- appends _ (if ?x then _ else _) => destruct x
      end ].

Ltac appends_tac := repeat appends_step.

Lemma appends_f_read dflt kw (f : BinFile) size :
  appends (SnapT:=SnapT) (reader_log dflt kw) (f_read f size).
Proof. unfold f_read. appends_tac. Qed.
#[local] Hint Resolve appends_f_read : appends.

Lemma appends_f_seek dflt kw (f : BinFile) target :
  appends (SnapT:=SnapT) (reader_log dflt kw) (f_seek f target).
Proof. unfold f_seek. appends_tac. Qed.
#[local] Hint Resolve appends_f_seek : appends.

Lemma appends_py_index {A} dflt kw (l : list A) i :
  appends (SnapT:=SnapT) (reader_log dflt kw) (py_index l i).
Proof. unfold py_index. appends_tac. Qed.
#[local] Hint Resolve appends_py_index : appends.

Lemma appends_decode dflt kw args :
  appends (reader_log dflt kw) (decode Snapshot_parse args).
Proof. unfold decode. appends_tac. Qed.
#[local] Hint Resolve appends_decode : appends.

Lemma appends_extract_blobs dflt kw lengths : forall (f : BinFile) blobs offsets,
  appends (SnapT:=SnapT) (reader_log dflt kw)
    (extract_blobs page f blobs offsets lengths).
Proof.
  induction lengths as [|l rest IH]; intros f blobs offsets; cbn [extract_blobs].
  - appends_tac.
  - apply appends_bind; [unfold extract_blob; appends_tac|].
    intros [[f' bl] offs]. apply IH.
Qed.
#[local] Hint Resolve appends_extract_blobs : appends.

Lemma appends_appjit_body (f : BinFile) b base kw :
  appends (reader_log 3 kw)
    (magic ← lift (unpack_Q b);
     _ ← (if magic =? kAppJITMagic then ret tt
          else log 3 kw 1 ("WARN: Magic not matching, got 0x" +:+ format_016x magic));
     appjit_after_magic Snapshot_parse page f base kw).
Proof. unfold appjit_after_magic, appjit_blobs, appjit_decode. appends_tac. Qed.

Lemma appends_elf_decode (f : ELF) blobs offsets kw :
  appends (reader_log 4 kw)
    (elf_decode snap_arch snap_is_64 Snapshot_parse f blobs offsets kw).
Proof. unfold elf_decode. appends_tac. Qed.

Lemma stdout_app (evs1 evs2 : list Event) :
  stdout (evs1 ++ evs2) = stdout evs1 ++ stdout evs2.
Proof. apply omap_app. Qed.

Lemma reader_log_silent dflt kw k (evs : list Event) :
  print_level kw = Some k -> k < 1 ->
  Forall (reader_log dflt kw) evs -> stdout evs = [].
Proof.
  intros Hk Hlow. induction 1 as [|ev evs Hev _ IH]; [done|].
  destruct ev as [| | |n x p|]; try exact IH.
  cbn in Hev. destruct Hev as [Hn ->]. rewrite Hk.
  replace (n <=? default dflt (Some k)) with false
    by (symmetry; apply Z.leb_gt; cbn; lia).
  exact IH.
Qed.

(** X11: with a print level below 1 neither reader prints a line of its
    own, on any path: not the banners, not the warnings about the magic or
    the architecture. *)
Theorem readers_are_silent_below_level_one fname base kw (st : St) k :
  print_level kw = Some k -> k < 1 ->
  stdout (events (parse_appjit_snapshot Snapshot_parse kAppJITMagic page
                    fname base kw st).2)
  = stdout (events st)
  /\ stdout (events (parse_elf_snapshot snap_arch snap_is_64 Snapshot_parse
                       kAppAOTSymbols has_elftools ELFFile fname kw st).2)
     = stdout (events st).
Proof.
  intros Hk Hlow. split.
  - unfold parse_appjit_snapshot. rewrite run_bind. unfold py_open at 1.
    destruct (files st !! fname) as [c|]; [|done].
    rewrite run_bind.
    destruct (appends_f_read 3 kw {| content := c; pos := 0 |} 8)
      as (r1 & evs1 & H1 & Hev1).
    rewrite H1. destruct r1 as [[b f]|e].
    + destruct (appends_appjit_body f b base kw) as (r2 & evs2 & H2 & Hev2).
      rewrite H2. cbn [snd add_events events].
      rewrite !stdout_app.
      rewrite (reader_log_silent 3 kw k evs1 Hk Hlow Hev1).
      rewrite (reader_log_silent 3 kw k evs2 Hk Hlow Hev2).
      cbn. by rewrite !app_nil_r.
    + cbn [snd add_events events]. rewrite !stdout_app.
      rewrite (reader_log_silent 3 kw k evs1 Hk Hlow Hev1).
      cbn. by rewrite !app_nil_r.
  - unfold parse_elf_snapshot. destruct has_elftools; cbn [negb]; [|done].
    rewrite run_bind. unfold py_open at 1.
    destruct (files st !! fname) as [c|]; [|done].
    rewrite run_lift. cbn [content].
    destruct (ELFFile c) as [elf|e];
      [|cbn [snd events]; rewrite stdout_app; cbn; by rewrite app_nil_r].
    rewrite run_lift.
    destruct (elf_blobs kAppAOTSymbols elf) as [[blobs offsets]|e];
      [|cbn [snd events]; rewrite stdout_app; cbn; by rewrite app_nil_r].
    destruct (appends_elf_decode elf blobs offsets kw) as (r & evs & H & Hev).
    rewrite H. cbn [snd add_events events]. rewrite !stdout_app.
    rewrite (reader_log_silent 4 kw k evs Hk Hlow Hev).
    cbn. by rewrite !app_nil_r.
Qed.

(** *** Further properties: well-formed raw containers *)

Lemma spec_layout4 c p l0 l1 l2 l3 :
  exists a0 b0 a1 b1 a2 b2 a3 b3,
    spec_layout page c p [l0; l1; l2; l3]
    = [(a0, l0, b0); (a1, l1, b1); (a2, l2, b2); (a3, l3, b3)].
Proof. by eexists _, _, _, _, _, _, _, _. Qed.

(** X12: on a well-formed raw container (expected magic, non-negative
    lengths, no vm-instructions without vm-data, every blob present in
    full) the reader's own steps never fail and log no warning: every
    decoder call gets blobs of exactly the declared lengths, and what the
    reader returns or raises is what its last decoder call returns or
    raises. *)
Theorem appjit_well_formed_reaches_decoder fname base kw (st : St) c :
  0 < page ->
  files st !! fname = Some c ->
  well_formed_appjit kAppJITMagic page c = true ->
  let r := parse_appjit_snapshot Snapshot_parse kAppJITMagic page fname base kw st in
  exists l0 l1 l2 l3 evs call,
    appjit_header c = Ok (kAppJITMagic, [l0; l1; l2; l3])
    /\ r.2 = add_events (opened fname st) evs
    /\ (forall x p, EvLog 1 x p ∉ evs)
    /\ Forall (fun a =>
         Z.of_nat (length (data a)) = (if vm a then l0 else l2)
         /\ Z.of_nat (length (instructions a)) = (if vm a then l1 else l3))
         (decodes evs)
    /\ last (decodes evs) = Some call
    /\ r.1 = Snapshot_parse call.
Proof.
  intros Hp Hfile Hwf r. unfold well_formed_appjit in Hwf.
  destruct (appjit_header c) as [[m lengths]|e] eqn:Hhdr; [|done].
  pose proof (appjit_header_inv _ _ _ Hhdr) as [_ Hunpack].
  apply unpack_qqqq_length in Hunpack as [_ Hfour].
  destruct lengths as [|l0 [|l1 [|l2 [|l3 [|]]]]]; try done.
  apply andb_true_iff in Hwf as [Hwf Hfull].
  apply andb_true_iff in Hwf as [Hwf Hshape].
  apply andb_true_iff in Hwf as [Hmagic Hnonneg].
  apply Z.eqb_eq in Hmagic. subst m.
  cbn [forallb] in Hnonneg.
  repeat (apply andb_true_iff in Hnonneg as [?%Z.leb_le Hnonneg]).
  assert (Hall : Forall readable_size [l0; l1; l2; l3])
    by (repeat constructor; unfold readable_size; lia).
  unfold r.
  rewrite (parse_appjit_run fname base kw st c _ _ Hp Hfile Hhdr Hall).
  cbn zeta.
  destruct (spec_layout4 c 40 l0 l1 l2 l3)
    as (a0 & b0 & a1 & b1 & a2 & b2 & a3 & b3 & Hlay).
  rewrite Hlay in Hfull |- *.
  cbn [forallb] in Hfull.
  repeat (apply andb_true_iff in Hfull as [?%Z.eqb_eq Hfull]).
  cbn [fmap list_fmap fst snd layout_events flat_map app].
  unfold magic_events. rewrite Z.eqb_refl. cbn [app].
  rewrite appjit_decode_run. cbn zeta.
  exists l0, l1, l2, l3.
  assert (Hno : forall (tail : list Event) x p,
    EvLog 1 x p ∉ tail ->
    EvLog 1 x p ∉ [EvRead 8; EvRead (4 * 8); EvSeek a0; EvRead l0; EvSeek a1;
                   EvRead l1; EvSeek a2; EvRead l2; EvSeek a3; EvRead l3]
                  ++ tail).
  { intros tail x p Htail Hin. apply elem_of_app in Hin as [Hin|Hin]; [|done].
    repeat (apply elem_of_cons in Hin as [Hin|Hin]; [done|]).
    by apply elem_of_nil in Hin. }
  destruct b0 as [|x0 b0'].
  - (* no vm-data: the declared vm-instructions length is zero as well *)
    assert (l0 = 0) as -> by (cbn in *; lia).
    cbn in Hshape. rewrite Hshape.
    cbn [fst snd]. rewrite add_events_app.
    eexists _, _. split; [done|]. split; [reflexivity|]. split; [|split; [|split]].
    + intros x p. apply Hno. intros Hin.
      repeat (apply elem_of_cons in Hin as [Hin|Hin]; [done|]).
      by apply elem_of_nil in Hin.
    + cbn. repeat constructor; cbn in *; lia.
    + reflexivity.
    + reflexivity.
  - destruct (Snapshot_parse (vm_call (x0 :: b0') a0 b1 a1 kw)) as [s|e] eqn:Evm;
      cbn [fst snd]; rewrite add_events_app;
      eexists _, _; (split; [done|]); (split; [reflexivity|]);
      (split; [|split; [|split]]).
    + intros x p. apply Hno. intros Hin.
      repeat (apply elem_of_cons in Hin as [Hin|Hin]; [done|]).
      by apply elem_of_nil in Hin.
    + cbn. repeat constructor; cbn in *; lia.
    + reflexivity.
    + reflexivity.
    + intros x p. apply Hno. intros Hin.
      repeat (apply elem_of_cons in Hin as [Hin|Hin]; [done|]).
      by apply elem_of_nil in Hin.
    + cbn. repeat constructor; cbn in *; lia.
    + reflexivity.
    + by rewrite Evm.
Qed.

(** *** Lengths that [read] rejects *)




End Properties.

(** ** The properties on the sample containers *)

Lemma sample_header_isolate_only :
  appjit_header isolate_only_image = Ok (sample_magic, [0; 0; 120; 340]).
Proof. by vm_compute. Qed.

Lemma sample_header_orphan :
  appjit_header orphan_instructions_image = Ok (sample_magic, [0; 8; 50; 50]).
Proof. by vm_compute. Qed.

Lemma sample_header_truncated :
  appjit_header truncated_image = Ok (sample_magic, [0; 0; 120; 340]).
Proof. by vm_compute. Qed.


(** C4 as stated fails on the specification's own end-to-end scenario: the
    container is well formed, and its first three offsets are all 4096. *)
Lemma appjit_offsets_not_strictly_increasing :
  well_formed_appjit sample_magic 4096 isolate_only_image = true
  /\ (appjit_blobs 4096 (sample_appjit_file isolate_only_image)
        (sample_state isolate_only_image)).1
     = Ok ([0; 0; 120; 340],
           [[]; []; replicate 120 x01; replicate 340 x02],
           [4096; 4096; 4096; 8192])
  /\ strictly_increasing [4096; 4096; 4096; 8192] = false.
Proof. by vm_compute. Qed.

(** C4 (amended) on the same container. *)
Lemma appjit_offsets_aligned_nondecreasing_witness :
  0 < 4096
  /\ 0 <= pos (sample_appjit_file isolate_only_image)
  /\ appjit_blobs 4096 (sample_appjit_file isolate_only_image)
       (sample_state isolate_only_image)
     = (Ok ([0; 0; 120; 340],
            [[]; []; replicate 120 x01; replicate 340 x02],
            [4096; 4096; 4096; 8192]),
        add_events (sample_state isolate_only_image)
          [EvRead 32; EvSeek 4096; EvRead 0; EvSeek 4096; EvRead 0;
           EvSeek 4096; EvRead 120; EvSeek 8192; EvRead 340])
  /\ Forall (fun a => (4096 | a)) [4096; 4096; 4096; 8192]
  /\ forall i a a' b,
       [4096; 4096; 4096; 8192] !! i = Some a ->
       [4096; 4096; 4096; 8192] !! S i = Some a' ->
       [[]; []; replicate 120 x01; replicate 340 x02] !! i = Some b ->
       a <= a' /\ (a < a' <-> b <> []).
Proof.
  assert (Hp : 0 < 4096) by lia.
  assert (Hpos : 0 <= pos (sample_appjit_file isolate_only_image)) by (cbn; lia).
  assert (Hrun : appjit_blobs 4096 (sample_appjit_file isolate_only_image)
       (sample_state isolate_only_image)
     = (Ok ([0; 0; 120; 340],
            [[]; []; replicate 120 x01; replicate 340 x02],
            [4096; 4096; 4096; 8192]),
        add_events (sample_state isolate_only_image)
          [EvRead 32; EvSeek 4096; EvRead 0; EvSeek 4096; EvRead 0;
           EvSeek 4096; EvRead 120; EvSeek 8192; EvRead 340]))
    by (by vm_compute).
  do 3 (split; [assumption|]).
  exact (appjit_offsets_aligned_nondecreasing 4096 _ _ _ _ _ _ Hp Hpos Hrun).
Defined.




(** C7 on the isolate-only container with the magic 0x1234: the same
    snapshot comes back as with the expected magic, and the only difference
    is the warning, which the default print level prints. *)
Lemma appjit_magic_mismatch_only_warns_witness :
  0 < 4096
  /\ unpack_Q (pread bad_magic_image 0 8) = Ok 0x1234
  /\ 0x1234 <> sample_magic
  /\ unpack_Q (pread isolate_only_image 0 8) = Ok sample_magic
  /\ drop 8 isolate_only_image = drop 8 bad_magic_image
  /\ (sample_appjit_run_at None bad_magic_image).1
     = (sample_appjit_run_at None isolate_only_image).1
  /\ handles (sample_appjit_run_at None bad_magic_image).2
     = handles (sample_appjit_run_at None isolate_only_image).2
  /\ exists rest,
       events (sample_appjit_run_at None isolate_only_image).2
       = [] ++ [EvOpen "app.snapshot"; EvRead 8] ++ EvRead (4 * 8) :: rest
       /\ events (sample_appjit_run_at None bad_magic_image).2
          = [] ++ [EvOpen "app.snapshot"; EvRead 8;
                   EvLog 1 "WARN: Magic not matching, got 0x0000000000001234" true]
               ++ EvRead (4 * 8) :: rest.
Proof.
  assert (Hp : 0 < 4096) by lia.
  assert (Hm : unpack_Q (pread bad_magic_image 0 8) = Ok 0x1234) by (by vm_compute).
  assert (Hne : 0x1234 <> sample_magic) by (by vm_compute).
  assert (Hm' : unpack_Q (pread isolate_only_image 0 8) = Ok sample_magic)
    by (by vm_compute).
  assert (Heq : drop 8 isolate_only_image = drop 8 bad_magic_image)
    by (by vm_compute).
  do 5 (split; [assumption|]).
  exact (appjit_magic_mismatch_only_warns sample_parse sample_magic 4096
           "app.snapshot" None {| print_level := None |} ∅ [] []
           bad_magic_image isolate_only_image 0x1234 Hp Hm Hne Hm' Heq).
Defined.

(** C9 as stated fails: after the raw reader has returned the isolate
    snapshot of the sample container, and after it has raised on the
    malformed one, the handle it opened is still open. *)
Lemma appjit_handle_not_released :
  (exists snap, (sample_appjit_run isolate_only_image).1 = Ok snap)
  /\ handles (sample_state isolate_only_image) = []
  /\ handles (sample_appjit_run isolate_only_image).2 = ["app.snapshot"]
  /\ (sample_appjit_run orphan_instructions_image).1 = Raise AssertionError
  /\ handles (sample_appjit_run orphan_instructions_image).2 = ["app.snapshot"].
Proof. split; [eexists|]; by vm_compute. Qed.

(** C2 fails on the raw reader: the truncated container declares 120 and
    340 bytes for the isolate pair, the file has 10 and 0 of them, and the
    reader raises nothing: it hands the short blobs to the decoder and
    returns what the decoder returns. *)
Theorem appjit_truncated_blob_is_not_fatal :
  appjit_header truncated_image = Ok (sample_magic, [0; 0; 120; 340])
  /\ (appjit_blobs 4096 (sample_appjit_file truncated_image)
        (sample_state truncated_image)).1
     = Ok ([0; 0; 120; 340], [[]; []; replicate 10 x01; []],
           [4096; 4096; 4096; 8192])
  /\ decodes (events (sample_appjit_run truncated_image).2)
     = [isolate_call (replicate 10 x01) 4096 [] 8192 None no_kwargs]
  /\ (sample_appjit_run truncated_image).1
     = Ok {| sample_vm := false; sample_arch := "x64-release";
             sample_is_64 := true |}.
Proof. by vm_compute. Qed.

(** C5 on the sample ELF container: four blobs of 64, 128, 256 and 512
    bytes, the decoder called on the VM pair and then on the isolate pair
    with the VM snapshot as base, and the isolate snapshot returned. *)
Lemma elf_decodes_base_then_isolate_witness :
  true = true
  /\ files sample_elf_state !! "libapp.so" = Some []
  /\ (fun _ : bytes => Ok sample_elf) [] = Ok sample_elf
  /\ length sample_symbols = 4%nat
  /\ elf_blobs sample_symbols sample_elf
     = Ok ([replicate 64 x01; replicate 128 x02; replicate 256 x03;
            replicate 512 x04], [0x1000; 0x2000; 0x3000; 0x4000])
  /\ exists evs base,
       sample_parse (vm_call (replicate 64 x01) 0x1000 (replicate 128 x02)
                       0x2000 no_kwargs) = Ok base
       /\ (sample_elf_run sample_symbols sample_parse).2
          = add_events (opened "libapp.so" sample_elf_state) evs
       /\ decodes evs
          = [vm_call (replicate 64 x01) 0x1000 (replicate 128 x02) 0x2000
               no_kwargs;
             isolate_call (replicate 256 x03) 0x3000 (replicate 512 x04)
               0x4000 (Some base) no_kwargs]
       /\ (sample_elf_run sample_symbols sample_parse).1
          = Ok {| sample_vm := false; sample_arch := "x64-release";
                  sample_is_64 := true |}.
Proof.
  assert (Hlib : true = true) by reflexivity.
  assert (Hfile : files sample_elf_state !! "libapp.so" = Some [])
    by (by vm_compute).
  assert (Helf : (fun _ : bytes => Ok sample_elf) [] = Ok sample_elf)
    by reflexivity.
  assert (Hfour : length sample_symbols = 4%nat) by reflexivity.
  assert (Hblobs : elf_blobs sample_symbols sample_elf
     = Ok ([replicate 64 x01; replicate 128 x02; replicate 256 x03;
            replicate 512 x04], [0x1000; 0x2000; 0x3000; 0x4000]))
    by (by vm_compute).
  do 5 (split; [assumption|]).
  destruct (elf_decodes_base_then_isolate sample_arch sample_is_64 sample_parse
              sample_symbols true (fun _ => Ok sample_elf) "libapp.so"
              no_kwargs sample_elf_state [] sample_elf _ _
              Hlib Hfile Helf Hfour Hblobs)
    as (b0 & b1 & b2 & b3 & o0 & o1 & o2 & o3 & Hb & Ho & Hcalls).
  injection Hb as <- <- <- <-. injection Ho as <- <- <- <-.
  destruct (Hcalls _ eq_refl) as (evs & Hst & Hdec & Hres).
  exists evs. eexists. split; [reflexivity|].
  split; [exact Hst|]. split; [exact Hdec|]. exact Hres.
Defined.

(** C6 on the sample ELF container when a fifth required name resolves to
    an address that no section holds: [StopIteration], and no event but the
    opening of the file. *)
Lemma elf_unresolved_symbol_is_fatal_witness :
  true = true
  /\ files sample_elf_state !! "libapp.so" = Some []
  /\ (fun _ : bytes => Ok sample_elf) [] = Ok sample_elf
  /\ "_stray" ∈ sample_symbols ++ ["_stray"]
  /\ symbol_index (omap symtab (elf_sections sample_elf)) !! "_stray"
     = Some {| st_value := 0x9000; st_size := 4 |}
  /\ (forall S, S ∈ elf_sections sample_elf ->
                ~ in_range {| st_value := 0x9000; st_size := 4 |} S)
  /\ exists e,
       (sample_elf_run (sample_symbols ++ ["_stray"]) sample_parse).1 = Raise e
       /\ extraction_error e
       /\ (sample_elf_run (sample_symbols ++ ["_stray"]) sample_parse).2
          = opened "libapp.so" sample_elf_state
       /\ decodes (events (sample_elf_run (sample_symbols ++ ["_stray"])
                             sample_parse).2)
          = decodes (events sample_elf_state).
Proof.
  assert (Hlib : true = true) by reflexivity.
  assert (Hfile : files sample_elf_state !! "libapp.so" = Some [])
    by (by vm_compute).
  assert (Helf : (fun _ : bytes => Ok sample_elf) [] = Ok sample_elf)
    by reflexivity.
  assert (Hin : "_stray" ∈ sample_symbols ++ ["_stray"])
    by (apply elem_of_app; right; apply list_elem_of_singleton; reflexivity).
  assert (Hsym : symbol_index (omap symtab (elf_sections sample_elf)) !! "_stray"
                 = Some {| st_value := 0x9000; st_size := 4 |})
    by (by vm_compute).
  assert (Hnone : forall S, S ∈ elf_sections sample_elf ->
                    ~ in_range {| st_value := 0x9000; st_size := 4 |} S).
  { intros S HS. unfold sample_elf in HS. cbn [elf_sections] in HS.
    repeat (apply elem_of_cons in HS as [->|HS]);
      [unfold in_range; cbn; lia ..|by apply elem_of_nil in HS]. }
  do 6 (split; [assumption|]).
  exact (elf_unresolved_symbol_is_fatal sample_arch sample_is_64 sample_parse
           (sample_symbols ++ ["_stray"]) true (fun _ => Ok sample_elf)
           "libapp.so" no_kwargs sample_elf_state [] sample_elf "_stray"
           Hlib Hfile Helf Hin
           (or_intror (ex_intro _ _ (conj Hsym Hnone)))).
Defined.

(** C8 on the sample ELF container, an EM_X86_64 file of class 64, with a
    decoder that answers arm-release and 32 bits: the isolate snapshot is
    returned and the last event is the printed warning. *)
Lemma elf_arch_mismatch_only_warns_witness :
  true = true
  /\ files sample_elf_state !! "libapp.so" = Some []
  /\ (fun _ : bytes => Ok sample_elf) [] = Ok sample_elf
  /\ elf_blobs sample_symbols sample_elf
     = Ok ([replicate 64 x01; replicate 128 x02; replicate 256 x03;
            replicate 512 x04], [0x1000; 0x2000; 0x3000; 0x4000])
  /\ (sample_elf_run sample_symbols arm_parse).1
     = Ok {| sample_vm := false; sample_arch := "arm-release";
             sample_is_64 := false |}
  /\ arch_mismatch sample_arch sample_is_64 sample_elf
       {| sample_vm := false; sample_arch := "arm-release";
          sample_is_64 := false |} = true
  /\ last (events (sample_elf_run sample_symbols arm_parse).2)
     = Some (EvLog 1
               "WARN: ELF arch (EM_X86_64) and/or class (64) not matching snapshot"
               true).
Proof.
  assert (Hlib : true = true) by reflexivity.
  assert (Hfile : files sample_elf_state !! "libapp.so" = Some [])
    by (by vm_compute).
  assert (Helf : (fun _ : bytes => Ok sample_elf) [] = Ok sample_elf)
    by reflexivity.
  assert (Hblobs : elf_blobs sample_symbols sample_elf
     = Ok ([replicate 64 x01; replicate 128 x02; replicate 256 x03;
            replicate 512 x04], [0x1000; 0x2000; 0x3000; 0x4000]))
    by (by vm_compute).
  do 4 (split; [assumption|]).
  destruct (elf_arch_mismatch_only_warns sample_arch sample_is_64 arm_parse
              sample_symbols true (fun _ => Ok sample_elf) "libapp.so"
              no_kwargs sample_elf_state [] sample_elf _ _ _ _ _ _ _ _ _ _
              Hlib Hfile Helf Hblobs eq_refl eq_refl)
    as (_ & _ & Hx64 & Hres & evs & Hst).
  split; [exact Hres|]. split; [by apply Hx64|].
  by vm_compute.
Defined.

(** ** The further properties on the sample containers *)

(** X1 on twenty bytes of the container with the magic 0x1234: the warning
    is logged, then [struct.error]. *)
Lemma appjit_short_header_is_struct_error_witness :
  files (sample_state short_image) !! "app.snapshot" = Some short_image
  /\ (length short_image < 40)%nat
  /\ sample_appjit_run short_image
     = (Raise StructError,
        add_events (opened "app.snapshot" (sample_state short_image))
          [EvRead 8;
           EvLog 1 "WARN: Magic not matching, got 0x0000000000001234" true;
           EvRead 32]).
Proof.
  assert (Hfile : files (sample_state short_image) !! "app.snapshot"
                  = Some short_image) by (by vm_compute).
  assert (Hlen : (length short_image < 40)%nat).
  { replace (length short_image) with 20%nat by (by vm_compute). lia. }
  do 2 (split; [assumption|]). unfold sample_appjit_run.
  rewrite (appjit_short_header_is_struct_error sample_parse sample_magic 4096
             "app.snapshot" None no_kwargs (sample_state short_image)
             short_image Hfile Hlen).
  by vm_compute.
Defined.


(** X3 on the truncated container: the isolate data blob is the ten bytes
    the file has at offset 4096, the instructions blob is empty. *)
Lemma appjit_blobs_are_file_slices_witness :
  0 < 4096
  /\ 0 <= pos (sample_appjit_file truncated_image)
  /\ appjit_blobs 4096 (sample_appjit_file truncated_image)
       (sample_state truncated_image)
     = (Ok ([0; 0; 120; 340], [[]; []; replicate 10 x01; []],
            [4096; 4096; 4096; 8192]),
        add_events (sample_state truncated_image)
          [EvRead 32; EvSeek 4096; EvRead 0; EvSeek 4096; EvRead 0;
           EvSeek 4096; EvRead 120; EvSeek 8192; EvRead 340])
  /\ replicate 10 x01 = take 120 (drop 4096 truncated_image)
  /\ Z.of_nat (length (replicate 10 x01 : bytes))
     = Z.max 0 (Z.min 120 (Z.of_nat (length truncated_image) - 4096)).
Proof.
  assert (Hp : 0 < 4096) by lia.
  assert (Hpos : 0 <= pos (sample_appjit_file truncated_image)) by (cbn; lia).
  assert (Hrun : appjit_blobs 4096 (sample_appjit_file truncated_image)
       (sample_state truncated_image)
     = (Ok ([0; 0; 120; 340], [[]; []; replicate 10 x01; []],
            [4096; 4096; 4096; 8192]),
        add_events (sample_state truncated_image)
          [EvRead 32; EvSeek 4096; EvRead 0; EvSeek 4096; EvRead 0;
           EvSeek 4096; EvRead 120; EvSeek 8192; EvRead 340]))
    by (by vm_compute).
  do 3 (split; [assumption|]).
  destruct (appjit_blobs_are_file_slices 4096 _ _ _ _ _ _ Hp Hpos Hrun)
    as (_ & _ & _ & Hslice).
  destruct (Hslice 2%nat 120 4096 (replicate 10 x01) eq_refl eq_refl eq_refl)
    as (_ & Hfull & _).
  exact (Hfull ltac:(lia)).
Defined.

(** X4 on the isolate-only container: 120 bytes at 4096, the next blob at
    8192. *)
Lemma appjit_blobs_do_not_overlap_witness :
  0 < 4096
  /\ 0 <= pos (sample_appjit_file isolate_only_image)
  /\ appjit_blobs 4096 (sample_appjit_file isolate_only_image)
       (sample_state isolate_only_image)
     = (Ok ([0; 0; 120; 340],
            [[]; []; replicate 120 x01; replicate 340 x02],
            [4096; 4096; 4096; 8192]),
        add_events (sample_state isolate_only_image)
          [EvRead 32; EvSeek 4096; EvRead 0; EvSeek 4096; EvRead 0;
           EvSeek 4096; EvRead 120; EvSeek 8192; EvRead 340])
  /\ 4096 + Z.of_nat (length (replicate 120 x01 : bytes)) <= 8192
     < 4096 + Z.of_nat (length (replicate 120 x01 : bytes)) + 4096.
Proof.
  assert (Hp : 0 < 4096) by lia.
  assert (Hpos : 0 <= pos (sample_appjit_file isolate_only_image)) by (cbn; lia).
  assert (Hrun : appjit_blobs 4096 (sample_appjit_file isolate_only_image)
       (sample_state isolate_only_image)
     = (Ok ([0; 0; 120; 340],
            [[]; []; replicate 120 x01; replicate 340 x02],
            [4096; 4096; 4096; 8192]),
        add_events (sample_state isolate_only_image)
          [EvRead 32; EvSeek 4096; EvRead 0; EvSeek 4096; EvRead 0;
           EvSeek 4096; EvRead 120; EvSeek 8192; EvRead 340]))
    by (by vm_compute).
  do 3 (split; [assumption|]).
  exact (appjit_blobs_do_not_overlap 4096 _ _ _ _ _ _ Hp Hpos Hrun
           2%nat 4096 8192 (replicate 120 x01) eq_refl eq_refl eq_refl).
Defined.

Lemma sample_header_full :
  appjit_header full_image = Ok (sample_magic, [16; 32; 120; 340]).
Proof. by vm_compute. Qed.

(** X5 on the container with a base snapshot of its own: a base passed by
    the caller changes nothing. *)
Lemma appjit_own_vm_data_overrides_base_witness :
  0 < 4096
  /\ files (sample_state full_image) !! "app.snapshot" = Some full_image
  /\ appjit_header full_image = Ok (sample_magic, [16; 32; 120; 340])
  /\ Forall readable_size [16; 32; 120; 340]
  /\ pread full_image (spec_align 4096 40) 16 <> []
  /\ parse_appjit_snapshot sample_parse sample_magic 4096 "app.snapshot"
       (Some {| sample_vm := true; sample_arch := "arm-release";
                sample_is_64 := false |})
       no_kwargs (sample_state full_image)
     = parse_appjit_snapshot sample_parse sample_magic 4096 "app.snapshot"
         None no_kwargs (sample_state full_image).
Proof.
  assert (Hp : 0 < 4096) by lia.
  assert (Hfile : files (sample_state full_image) !! "app.snapshot"
                  = Some full_image) by (by vm_compute).
  assert (Hhdr : appjit_header full_image
                 = Ok (sample_magic, [16; 32; 120; 340])) by (by vm_compute).
  assert (Hall : Forall readable_size [16; 32; 120; 340])
    by (repeat constructor; unfold readable_size; lia).
  assert (Hb0 : pread full_image (spec_align 4096 40) 16 <> [])
    by (by vm_compute).
  do 5 (split; [assumption|]).
  exact (appjit_own_vm_data_overrides_base sample_parse sample_magic 4096
           "app.snapshot" _ None no_kwargs (sample_state full_image)
           full_image sample_magic 16 32 120 340 Hp Hfile Hhdr Hall Hb0).
Defined.


(** X7 on the sample ELF container with the same decoder. *)
Lemma elf_decoder_failure_propagates_witness :
  true = true
  /\ files sample_elf_state !! "libapp.so" = Some []
  /\ (fun _ : bytes => Ok sample_elf) [] = Ok sample_elf
  /\ elf_blobs sample_symbols sample_elf
     = Ok ([replicate 64 x01; replicate 128 x02; replicate 256 x03;
            replicate 512 x04], [0x1000; 0x2000; 0x3000; 0x4000])
  /\ (sample_elf_run sample_symbols failing_vm_parse).1 = Raise (DecoderError 1).
Proof.
  assert (Hlib : true = true) by reflexivity.
  assert (Hfile : files sample_elf_state !! "libapp.so" = Some [])
    by (by vm_compute).
  assert (Helf : (fun _ : bytes => Ok sample_elf) [] = Ok sample_elf)
    by reflexivity.
  assert (Hblobs : elf_blobs sample_symbols sample_elf
     = Ok ([replicate 64 x01; replicate 128 x02; replicate 256 x03;
            replicate 512 x04], [0x1000; 0x2000; 0x3000; 0x4000]))
    by (by vm_compute).
  do 4 (split; [assumption|]).
  destruct (elf_decoder_failure_propagates sample_arch sample_is_64
              failing_vm_parse sample_symbols true (fun _ => Ok sample_elf)
              "libapp.so" no_kwargs sample_elf_state [] sample_elf
              _ _ _ _ _ _ _ _ Hlib Hfile Helf Hblobs)
    as (evs & _ & Hvm & _).
  exact (proj1 (Hvm (DecoderError 1) eq_refl)).
Defined.

(** X9 on two tables that both define [_kDartVmSnapshotData]: the entry of
    the second table is the one resolved. *)
Lemma symbol_index_last_wins_witness :
  symbol_index duplicate_tables !! "_kDartVmSnapshotData"
  = Some {| st_value := 0x5000; st_size := 8 |}
  /\ symbol_index duplicate_tables !! "_absent" = None.
Proof.
  destruct (symbol_index_last_wins duplicate_tables "_kDartVmSnapshotData")
    as [_ Hlast].
  destruct (symbol_index_last_wins duplicate_tables "_absent") as [Hnone _].
  split.
  - apply (Hlast
             [ {| name := "_kDartVmSnapshotData";
                  entry := {| st_value := 0x1000; st_size := 64 |} |};
               {| name := "_other"; entry := {| st_value := 0x10; st_size := 1 |} |} ]
             {| name := "_kDartVmSnapshotData";
                entry := {| st_value := 0x5000; st_size := 8 |} |}
             [ {| name := "_last"; entry := {| st_value := 0x20; st_size := 2 |} |} ]);
      [reflexivity|reflexivity|].
    intros x Hx. apply list_elem_of_singleton in Hx. by subst x.
  - apply Hnone. intros sym Hsym. cbn in Hsym.
    repeat (apply elem_of_cons in Hsym as [->|Hsym]; [done|]).
    by apply elem_of_nil in Hsym.
Defined.

(** X8 on the sample ELF container, for the fourth required name. *)
Lemma elf_blobs_are_symbol_slices_witness :
  elf_blobs sample_symbols sample_elf
  = Ok ([replicate 64 x01; replicate 128 x02; replicate 256 x03;
         replicate 512 x04], [0x1000; 0x2000; 0x3000; 0x4000])
  /\ exists en S before after,
       symbol_index (omap symtab (elf_sections sample_elf))
         !! "_kDartIsolateSnapshotInstructions" = Some en
       /\ elf_sections sample_elf = before ++ S :: after
       /\ in_range en S
       /\ (forall S', S' ∈ before -> ~ in_range en S')
       /\ [0x1000; 0x2000; 0x3000; 0x4000] !! 3%nat = Some (Z.of_N (st_value en))
       /\ [replicate 64 x01; replicate 128 x02; replicate 256 x03;
           replicate 512 x04] !! 3%nat
          = Some (take (N.to_nat (st_size en))
                    (drop (N.to_nat (st_value en - sh_addr S)) (sec_data S)))
       /\ length (take (N.to_nat (st_size en))
                    (drop (N.to_nat (st_value en - sh_addr S)) (sec_data S)))
          = N.to_nat (st_size en).
Proof.
  assert (Hblobs : elf_blobs sample_symbols sample_elf
     = Ok ([replicate 64 x01; replicate 128 x02; replicate 256 x03;
            replicate 512 x04], [0x1000; 0x2000; 0x3000; 0x4000]))
    by (by vm_compute).
  split; [assumption|].
  destruct (elf_blobs_are_symbol_slices sample_symbols sample_elf _ _ Hblobs)
    as (_ & _ & Hslices).
  exact (Hslices 3%nat "_kDartIsolateSnapshotInstructions" eq_refl).
Defined.

(** X10 on the sample ELF container when a fifth required name resolves to
    an address that no section holds. *)
Lemma elf_first_failing_name_decides_witness :
  true = true
  /\ files sample_elf_state !! "libapp.so" = Some []
  /\ (fun _ : bytes => Ok sample_elf) [] = Ok sample_elf
  /\ sample_symbols ++ ["_stray"] = sample_symbols ++ "_stray" :: []
  /\ elf_extract_blobs (elf_sections sample_elf)
       (symbol_index (omap symtab (elf_sections sample_elf))) [] []
       sample_symbols
     = Ok ([replicate 64 x01; replicate 128 x02; replicate 256 x03;
            replicate 512 x04], [0x1000; 0x2000; 0x3000; 0x4000])
  /\ sample_elf_run (sample_symbols ++ ["_stray"]) sample_parse
     = (Raise StopIteration, opened "libapp.so" sample_elf_state).
Proof.
  assert (Hlib : true = true) by reflexivity.
  assert (Hfile : files sample_elf_state !! "libapp.so" = Some [])
    by (by vm_compute).
  assert (Helf : (fun _ : bytes => Ok sample_elf) [] = Ok sample_elf)
    by reflexivity.
  assert (Hnames : sample_symbols ++ ["_stray"]
                   = sample_symbols ++ "_stray" :: []) by reflexivity.
  assert (Hpre : elf_extract_blobs (elf_sections sample_elf)
       (symbol_index (omap symtab (elf_sections sample_elf))) [] []
       sample_symbols
     = Ok ([replicate 64 x01; replicate 128 x02; replicate 256 x03;
            replicate 512 x04], [0x1000; 0x2000; 0x3000; 0x4000]))
    by (by vm_compute).
  do 5 (split; [assumption|]).
  destruct (elf_first_failing_name_decides sample_arch sample_is_64 sample_parse
              (sample_symbols ++ ["_stray"]) true (fun _ => Ok sample_elf)
              "libapp.so" no_kwargs sample_elf_state [] sample_elf
              sample_symbols "_stray" [] _ _ Hlib Hfile Helf Hnames Hpre)
    as (_ & Hstop & _).
  apply (Hstop {| st_value := 0x9000; st_size := 4 |}); [by vm_compute|].
  intros S HS. unfold sample_elf in HS. cbn [elf_sections] in HS.
  repeat (apply elem_of_cons in HS as [->|HS]);
    [unfold in_range; cbn; lia ..|by apply elem_of_nil in HS].
Defined.

(** X11 at print level 0 on the container with the other magic: nothing is
    printed, although the magic does not match. *)
Lemma readers_are_silent_below_level_one_witness :
  print_level {| print_level := Some 0 |} = Some 0
  /\ 0 < 1
  /\ stdout (events (sample_appjit_run_at (Some 0) bad_magic_image).2) = [].
Proof.
  assert (Hk : print_level {| print_level := Some 0 |} = Some 0) by reflexivity.
  assert (Hlow : 0 < 1) by lia.
  do 2 (split; [assumption|]).
  exact (proj1 (readers_are_silent_below_level_one sample_arch sample_is_64
                  sample_parse sample_symbols sample_magic 4096 true
                  (fun _ => Ok sample_elf) "app.snapshot" None
                  {| print_level := Some 0 |}
                  {| files := <["app.snapshot" := bad_magic_image]> ∅;
                     handles := []; events := [] |} 0 Hk Hlow)).
Defined.

(** X12 on the isolate-only container. *)
Lemma appjit_well_formed_reaches_decoder_witness :
  0 < 4096
  /\ files (sample_state isolate_only_image) !! "app.snapshot"
     = Some isolate_only_image
  /\ well_formed_appjit sample_magic 4096 isolate_only_image = true
  /\ exists l0 l1 l2 l3 evs call,
       appjit_header isolate_only_image = Ok (sample_magic, [l0; l1; l2; l3])
       /\ (sample_appjit_run isolate_only_image).2
          = add_events (opened "app.snapshot" (sample_state isolate_only_image)) evs
       /\ (forall x p, EvLog 1 x p ∉ evs)
       /\ Forall (fun a =>
            Z.of_nat (length (data a)) = (if vm a then l0 else l2)
            /\ Z.of_nat (length (instructions a)) = (if vm a then l1 else l3))
            (decodes evs)
       /\ last (decodes evs) = Some call
       /\ (sample_appjit_run isolate_only_image).1 = sample_parse call.
Proof.
  assert (Hp : 0 < 4096) by lia.
  assert (Hfile : files (sample_state isolate_only_image) !! "app.snapshot"
                  = Some isolate_only_image) by (by vm_compute).
  assert (Hwf : well_formed_appjit sample_magic 4096 isolate_only_image = true)
    by (by vm_compute).
  do 3 (split; [assumption|]).
  exact (appjit_well_formed_reaches_decoder sample_parse sample_magic 4096
           "app.snapshot" None no_kwargs (sample_state isolate_only_image)
           isolate_only_image Hp Hfile Hwf).
Defined.
